(** * SciDownl: the HTML-to-document-link extractor

    A shallow embedding of [scidownl/core/extractor.py]: the module-level
    function [get_default_referer] and the class [HtmlPdfExtractor] with its
    methods [extract], [_extract_url], [_extract_raw_url], [_extract_title]
    and [_clean_title].

    Python [str] values are modelled as [string]; a character is a code
    point below 256.  Logging is left out.  Dictionaries ([task.context], [tag.attrs]) are
    [gmap string _].  Code that can raise returns a [result]; [extract],
    which also mutates the task context and calls the mirror health
    service, is a function from the extractor object to a result and the
    updated object.

    The second part embeds the commands [download] and [list_domains] of
    [scidownl/api/cli.py], the driver that builds and runs the tasks. *)

From Stdlib Require Import Ascii String ZArith.
From stdpp Require Import base option list strings gmap pretty sorting.

Open Scope string_scope.

(** ** Python string operations used by the extractor *)

Module PyStr.

(** [s[:n]] *)
Fixpoint take (n : nat) (s : string) : string :=
  match n, s with
  | S n', String c s' => String c (take n' s')
  | _, _ => EmptyString
  end.

(** [s[n:]] *)
Fixpoint drop (n : nat) (s : string) : string :=
  match n, s with
  | S n', String _ s' => drop n' s'
  | _, _ => s
  end.

(** [s.startswith(p)] *)
Fixpoint startswith (p s : string) : bool :=
  match p, s with
  | EmptyString, _ => true
  | String a p', String b s' => if decide (a = b) then startswith p' s' else false
  | String _ _, EmptyString => false
  end.

(** [sub in s]: [sub] occurs in [s] as a contiguous substring. *)
Fixpoint contains (sub s : string) : bool :=
  startswith sub s ||
  match s with
  | EmptyString => false
  | String _ s' => contains sub s'
  end.

(** [c in s] for a one-character [c]. *)
Fixpoint has_char (c : ascii) (s : string) : bool :=
  match s with
  | EmptyString => false
  | String a s' => if decide (a = c) then true else has_char c s'
  end.

(** [s.split(c)] for a one-character separator [c]: the list of the
    segments between the occurrences of [c]; it is never empty. *)
Fixpoint split (c : ascii) (s : string) : list string :=
  match s with
  | EmptyString => [EmptyString]
  | String a s' =>
      if decide (a = c) then EmptyString :: split c s'
      else match split c s' with
           | seg :: segs => String a seg :: segs
           | [] => [String a EmptyString]
           end
  end.

(** [str.isspace] on one character: the code points below 256 that
    Python counts as whitespace are 9-13, 28-32, 133 and 160. *)
Definition isspace (c : ascii) : bool :=
  let n := nat_of_ascii c in
  (Nat.leb 9 n && Nat.leb n 13) || (Nat.leb 28 n && Nat.leb n 32)
  || Nat.eqb n 133 || Nat.eqb n 160.

Fixpoint lstrip (s : string) : string :=
  match s with
  | String c s' => if isspace c then lstrip s' else s
  | EmptyString => EmptyString
  end.

Fixpoint rstrip (s : string) : string :=
  match s with
  | String c s' =>
      match rstrip s' with
      | EmptyString => if isspace c then EmptyString else String c EmptyString
      | r => String c r
      end
  | EmptyString => EmptyString
  end.

(** [s.strip()] *)
Definition strip (s : string) : string := rstrip (lstrip s).

(** Every character of [s] is whitespace. *)
Fixpoint all_space (s : string) : bool :=
  match s with
  | EmptyString => true
  | String c s' => isspace c && all_space s'
  end.

Fixpoint last_char (s : string) : option ascii :=
  match s with
  | EmptyString => None
  | String c EmptyString => Some c
  | String _ s' => last_char s'
  end.

(** The truth value of a string: [not s] holds of the empty string
    only. *)
Definition falsy (s : string) : bool :=
  match s with EmptyString => true | _ => false end.

(** [re.sub("[...]", repl, s)] for a pattern that is one character
    class: every character of the class is replaced by [repl], the
    others are kept. *)
Fixpoint re_sub_class (cls : list ascii) (repl : string) (s : string) : string :=
  match s with
  | EmptyString => EmptyString
  | String c s' =>
      (if bool_decide (c ∈ cls) then repl else String c EmptyString)
      +:+ re_sub_class cls repl s'
  end.

End PyStr.

(** ** Exceptions and results *)

(** The exception classes the extractor can meet.  Each of them derives
    from [Exception], the class the [except] clause of [extract] names;
    [ExceptionSubclass name] stands for any further such class, for
    instance one raised by the HTML parser. *)
Inductive exc_class : Type :=
| PdfTagNotFoundException
| PdfUrlNotFoundException
| ExtractException
| TypeError
| IndexError
| KeyError
| AttributeError
| ExceptionSubclass (name : string).

(** An exception object: its class, its message ([str(e)]) and its
    [__context__], the exception that was being handled when it was
    raised. *)
#[warnings="-register-all"] Inductive exn : Type :=
| Exn (cls : exc_class) (msg : string) (context : option exn).

Definition exn_class (e : exn) : exc_class := let 'Exn c _ _ := e in c.
Definition str (e : exn) : string := let 'Exn _ m _ := e in m.
Definition exn_context (e : exn) : option exn := let 'Exn _ _ c := e in c.

Inductive result (A : Type) : Type :=
| Ok (a : A)
| Raise (e : exn).
Arguments Ok {A} a.
Arguments Raise {A} e.

#[global] Instance result_ret : MRet result := fun A a => Ok a.
#[global] Instance result_bind : MBind result := fun A B k m =>
  match m with
  | Ok a => k a
  | Raise e => Raise e
  end.

(** [l[i]] on a Python list. *)
Definition getitem (l : list string) (i : nat) : result string :=
  match l !! i with
  | Some x => Ok x
  | None => Raise (Exn IndexError "list index out of range" None)
  end.

(** ** The parsed page

    What [BeautifulSoup(markup, parser)] returns: the tree of the page.
    A node is a text string, a comment, or a tag with its name, its
    [attrs] dictionary and its [contents]. *)
#[warnings="-register-all"] Inductive node : Type :=
| NavigableString (s : string)
| Comment (s : string)
| Tag (name : string) (attrs : gmap string string) (contents : list node).

(** The [BeautifulSoup] object: the top-level nodes of the page. *)
Definition soup : Type := list node.

Definition name (t : node) : string :=
  match t with Tag n _ _ => n | _ => EmptyString end.

Definition attrs (t : node) : gmap string string :=
  match t with Tag _ a _ => a | _ => ∅ end.

(** [tag.text], [tag.get_text()]: the text strings below the tag, in
    document order, joined; comments do not count. *)
Fixpoint get_text (t : node) : string :=
  match t with
  | NavigableString s => s
  | Comment _ => EmptyString
  | Tag _ _ cs => String.concat EmptyString (map get_text cs)
  end.

(** The tags of a subtree in document order, the root first. *)
Fixpoint tags (t : node) : list node :=
  match t with
  | Tag _ _ cs => t :: flat_map tags cs
  | _ => []
  end.

(** [soup.descendants] restricted to tags. *)
Definition soup_tags (s : soup) : list node := flat_map tags s.

(** [soup.find(name, attrs)]: the first tag in document order with that
    name and with every listed attribute at the listed value. *)
Definition find_matches (nm : string) (flt : list (string * string)) (t : node) : bool :=
  bool_decide (name t = nm)
  && forallb (fun kv => bool_decide (attrs t !! kv.1 = Some kv.2)) flt.

Definition find (s : soup) (nm : string) (flt : list (string * string)) : option node :=
  List.find (find_matches nm flt) (soup_tags s).

(** ** The task, the health service and the chooser *)

Module PdfUrlTitleInformation.
Record t : Type := { url : string; title : string }.
End PdfUrlTitleInformation.

Module ScihubUrl.
Record t : Type := { url : string; success_times : nat; failed_times : nat }.
End ScihubUrl.

Module HtmlContent.
Record t : Type := { content : string }.
End HtmlContent.

(** The values a task context holds. *)
Inductive pyval : Type :=
| PyNone
| PyStr (s : string)
| PyInfo (i : PdfUrlTitleInformation.t)
| PyExc (e : exn).

Definition type_name (v : pyval) : string :=
  match v with
  | PyNone => "NoneType"
  | PyStr _ => "str"
  | PyInfo _ => "PdfUrlTitleInformation"
  | PyExc (Exn PdfTagNotFoundException _ _) => "PdfTagNotFoundException"
  | PyExc (Exn PdfUrlNotFoundException _ _) => "PdfUrlNotFoundException"
  | PyExc (Exn ExtractException _ _) => "ExtractException"
  | PyExc (Exn TypeError _ _) => "TypeError"
  | PyExc (Exn IndexError _ _) => "IndexError"
  | PyExc (Exn KeyError _ _) => "KeyError"
  | PyExc (Exn AttributeError _ _) => "AttributeError"
  | PyExc (Exn (ExceptionSubclass n) _ _) => n
  end.

(** [v + s] for a string [s]: concatenation when [v] is a string, a
    [TypeError] otherwise. *)
Definition add_str (v : pyval) (s : string) : result string :=
  match v with
  | PyStr r => Ok (r +:+ s)
  | _ => Raise (Exn TypeError
                  ("unsupported operand type(s) for +: '" +:+ type_name v +:+ "' and 'str'")
                  None)
  end.

(** [d.get(k, dflt)] *)
Definition dict_get (d : gmap string pyval) (k : string) (dflt : pyval) : pyval :=
  default dflt (d !! k).

Record BaseTask : Type := { context : gmap string pyval }.

(** Modelled from the spec: [ScihubUrlService] (db/service.py) is not among
    the sources.  Section 4.1 gives its contract: [increment_failed(url)]
    and [increment_success(url)] increment the named counter of the mirror
    matching [url] and are a no-op if [url] is unknown or absent, so a call
    returns normally.  The service is modelled by the sequence of the calls
    it received, each with its argument. *)
Inductive service_call : Type :=
| increment_failed_times_call (url : pyval)
| increment_success_times_call (url : pyval).

Record ScihubUrlService : Type := { calls : list service_call }.

Definition increment_failed_times (svc : ScihubUrlService) (url : pyval) : ScihubUrlService :=
  {| calls := calls svc ++ [increment_failed_times_call url] |}.

(** Modelled from the spec: the chooser classes (core/chooser.py) are not
    among the sources.  Sections 4.2 and 9 give their interface: [len]
    reports the candidate count and [next()] hands out a mirror or fails.
    A chooser class is represented by the chooser its constructor
    builds. *)
Record ScihubUrlChooser : Type := {
  __len__ : nat;
  next : result ScihubUrl.t
}.

(** ** What extractor.py takes from outside

    The HTML parser and the CSS selector engine are libraries; the
    protocol prefixes, the configuration and the chooser registry come from
    modules that are not among the sources.  They are the parameters of the
    development. *)
Class Env : Type := {
  (** [BeautifulSoup(markup, parser)]; it may raise. *)
  BeautifulSoup : string → string → result soup;
  (** whether a tag matches a CSS selector, decided on the tag itself (its
      name and attributes), as an id selector is; [select_one] is built on
      it *)
  css_match : string → node → bool;
  (** [UrlInformation.PROTOCOL_PREFIXES] *)
  PROTOCOL_PREFIXES : list string;
  (** [configs], read as [configs[section][key]] *)
  configs : gmap string (gmap string string);
  (** the registry [scihub_url_choosers] and its fallback class *)
  scihub_url_choosers : gmap string ScihubUrlChooser;
  AvailabilityFirstScihubUrlChooser : ScihubUrlChooser;
  (** [HtmlPdfExtractor.DEFAULT_REFERER], the class attribute bound, when
      the class body runs, to what [get_default_referer] returned *)
  DEFAULT_REFERER : string
}.

(** Modelled from the spec: [UrlInformation.DEFAULT_PROTOCOL_PREFIX]
    (core/information.py) is not among the sources.  Section 8 fixes it:
    the value [//example.com/x] resolves to [https://example.com/x], and
    the code drops the two slashes before it prepends the prefix. *)
Definition DEFAULT_PROTOCOL_PREFIX : string := "https://".

(** [soup.select_one(selector)]: the first tag in document order that
    matches the selector. *)
Definition select_one `{Env} (s : soup) (selector : string) : option node :=
  List.find (css_match selector) (soup_tags s).

(** [configs[section][key]] *)
Definition configs_get `{Env} (section key : string) : result string :=
  match configs !! section with
  | None => Raise (Exn KeyError ("'" +:+ section +:+ "'") None)
  | Some sec =>
      match sec !! key with
      | None => Raise (Exn KeyError ("'" +:+ key +:+ "'") None)
      | Some v => Ok v
      end
  end.

(** ** get_default_referer *)

Definition get_default_referer `{Env} : result string :=
  scihub_url_chooser_type ← configs_get "scihub.task" "scihub_url_chooser_type";
  let chooser :=
    default AvailabilityFirstScihubUrlChooser
            (scihub_url_choosers !! scihub_url_chooser_type) in
  if Nat.eqb (__len__ chooser) 0 then Ok "https://sci-hub.se"
  else m ← next chooser; Ok (ScihubUrl.url m).

(** ** HtmlPdfExtractor *)

Record HtmlPdfExtractor : Type := {
  content : HtmlContent.t;
  task : option BaseTask;
  service : ScihubUrlService;
  pdf_tag_selector : string;
  pdf_tag_attr : string;
  _parser : string
}.

(** [HtmlPdfExtractor(content, task)]; the service object is new and has
    received no call yet. *)
Definition __init__ `{Env} (content : HtmlContent.t) (task : option BaseTask)
  : result HtmlPdfExtractor :=
  let task :=
    match task with
    | Some t => Some {| context := <["status" := PyStr "extracting"]> (context t) |}
    | None => None
    end in
  selector ← configs_get "scihub.task.extractor" "pdf_tag_selector";
  attr ← configs_get "scihub.task.extractor" "pdf_tag_attr";
  Ok {| content := content; task := task; service := {| calls := [] |};
        pdf_tag_selector := selector; pdf_tag_attr := attr;
        _parser := "html.parser" |}.

Definition _extract_raw_url `{Env} (self : HtmlPdfExtractor) : result string :=
  soup ← BeautifulSoup (HtmlContent.content (content self)) (_parser self);
  match select_one soup (pdf_tag_selector self) with
  | None =>
      Raise (Exn PdfTagNotFoundException
               ("No pdf tag was found in the given content with the selector: "
                +:+ pdf_tag_selector self) None)
  | Some pdf_tag =>
      match attrs pdf_tag !! pdf_tag_attr self with
      | None =>
          Raise (Exn PdfUrlNotFoundException
                   ("No pdf url was found in the pdf tag: " +:+ get_text pdf_tag
                    +:+ " with the attr " +:+ pdf_tag_attr self) None)
      | Some raw_url => Ok raw_url
      end
  end.

Definition _extract_url `{Env} (self : HtmlPdfExtractor) : result string :=
  raw_url ← _extract_raw_url self;
  if existsb (fun prefix => PyStr.contains prefix raw_url) PROTOCOL_PREFIXES
  then Ok raw_url
  else
    url ← getitem (PyStr.split "#" raw_url) 0;
    if PyStr.startswith "//" url then
      Ok (DEFAULT_PROTOCOL_PREFIX +:+ PyStr.drop 2 url)
    else if PyStr.startswith "/" url then
      let referer :=
        match task self with
        | None => PyStr DEFAULT_REFERER
        | Some t => dict_get (context t) "referer" (PyStr DEFAULT_REFERER)
        end in
      add_str referer url
    else Ok url.

(** The characters of the class the pattern [rstr] of [_clean_title]
    lists: slash, backslash, colon, star, question mark, double quote
    (code 034), less-than, greater-than and the vertical bar. *)
Definition rstr : list ascii :=
  ["/"; "\"; ":"; "*"; "?"; "034"; "<"; ">"; "|"]%char.

Definition _clean_title (title : string) : string :=
  if PyStr.falsy title then EmptyString
  else PyStr.strip (PyStr.take 200 (PyStr.re_sub_class rstr " " title)).

(** Method 1 of [_extract_title]: the title tag. *)
Definition title_from_title_tag (soup : soup) (title : string) : result string :=
  match find soup "title" [] with
  | Some soup_title =>
      if Nat.ltb 0 (String.length (get_text soup_title)) then
        if PyStr.has_char "|" (get_text soup_title)
        then getitem (PyStr.split "|" (get_text soup_title)) 1
        else Ok (get_text soup_title)
      else Ok title
  | None => Ok title
  end.

(** Method 2: the first [h1] tag, when the title is still blank. *)
Definition title_from_h1 (soup : soup) (title : string) : string :=
  if PyStr.falsy (PyStr.strip title) then
    match find soup "h1" [] with
    | Some h1 => get_text h1
    | None => title
    end
  else title.

(** Method 3: the meta tags, when the title is still blank. *)
Definition title_from_meta (soup : soup) (title : string) : string :=
  if PyStr.falsy (PyStr.strip title) then
    let meta_title :=
      match find soup "meta" [("name", "citation_title")] with
      | Some m => Some m
      | None => find soup "meta" [("property", "og:title")]
      end in
    match meta_title with
    | Some m =>
        match attrs m !! "content" with
        | Some c => c
        | None => title
        end
    | None => title
    end
  else title.

Definition _extract_title `{Env} (self : HtmlPdfExtractor) : result string :=
  soup ← BeautifulSoup (HtmlContent.content (content self)) (_parser self);
  let title := EmptyString in
  title ← title_from_title_tag soup title;
  let title := title_from_h1 soup title in
  let title := title_from_meta soup title in
  Ok (_clean_title title).

(** ** Methods that change the extractor object

    A method that mutates [self.task.context] or calls [self.service] is a
    function from the object to a result and the object after the call.
    What was changed before an exception was raised stays changed. *)
Definition M (A : Type) : Type := HtmlPdfExtractor → result A * HtmlPdfExtractor.

Definition M_ret {A} (a : A) : M A := fun self => (Ok a, self).

Definition M_raise {A} (e : exn) : M A := fun self => (Raise e, self).

Definition M_bind {A B} (m : M A) (k : A → M B) : M B := fun self =>
  match m self with
  | (Ok a, self') => k a self'
  | (Raise e, self') => (Raise e, self')
  end.

(** A method that only reads the object. *)
Definition M_read {A} (f : HtmlPdfExtractor → result A) : M A :=
  fun self => (f self, self).

(** [try: body  except Exception as e: handler(e)] *)
Definition try_except {A} (body : M A) (handler : exn → M A) : M A := fun self =>
  match body self with
  | (Ok a, self') => (Ok a, self')
  | (Raise e, self') => handler e self'
  end.

(** [if self.task is not None: m] *)
Definition if_task (m : M unit) : M unit := fun self =>
  match task self with
  | Some _ => m self
  | None => (Ok tt, self)
  end.

Definition no_task_error : exn :=
  Exn AttributeError "'NoneType' object has no attribute 'context'" None.

(** [self.task.context[k] = v] *)
Definition context_setitem (k : string) (v : pyval) : M unit := fun self =>
  match task self with
  | Some t =>
      (Ok tt,
       {| content := content self;
          task := Some {| context := <[k := v]> (context t) |};
          service := service self;
          pdf_tag_selector := pdf_tag_selector self;
          pdf_tag_attr := pdf_tag_attr self;
          _parser := _parser self |})
  | None => (Raise no_task_error, self)
  end.

(** [self.task.context.get(k, dflt)] *)
Definition context_get (k : string) (dflt : pyval) : M pyval := fun self =>
  match task self with
  | Some t => (Ok (dict_get (context t) k dflt), self)
  | None => (Raise no_task_error, self)
  end.

(** [self.service.increment_failed_times(url)] *)
Definition service_increment_failed_times (url : pyval) : M unit := fun self =>
  (Ok tt,
   {| content := content self;
      task := task self;
      service := increment_failed_times (service self) url;
      pdf_tag_selector := pdf_tag_selector self;
      pdf_tag_attr := pdf_tag_attr self;
      _parser := _parser self |}).

Declare Scope M_scope.
Delimit Scope M_scope with M.
Notation "'let*' x := m 'in' k" := (M_bind m (fun x => k))
  (at level 10, x name, m at level 100, k at level 200) : M_scope.
Notation "m ;; k" := (M_bind m (fun _ => k))
  (at level 100, k at level 200, right associativity) : M_scope.

Definition extract `{Env} : M PdfUrlTitleInformation.t :=
  try_except
    (let* url := M_read _extract_url in
     let* title := M_read _extract_title in
     let info := {| PdfUrlTitleInformation.url := url;
                    PdfUrlTitleInformation.title := title |} in
     if_task (context_setitem "info" (PyInfo info)) ;;
     M_ret info)%M
    (fun e =>
       if_task (context_setitem "status" (PyStr "extracting_failed") ;;
                context_setitem "error" (PyExc e) ;;
                let* scihub_url := context_get "referer" PyNone in
                service_increment_failed_times scihub_url) ;;
       M_raise (Exn ExtractException ("Error occurs when extracting: " +:+ str e) (Some e)))%M.

(** ** Notions the statements use *)

(** [url] is [raw] without its fragment: everything from the first [#]
    on is gone. *)
Definition fragment_stripped (raw url : string) : Prop :=
  PyStr.has_char "#" url = false
  ∧ (raw = url ∨ ∃ frag, raw = url +:+ String "#" frag).

(** Some recognized protocol prefix occurs in [s]. *)
Definition has_protocol_prefix `{Env} (s : string) : Prop :=
  ∃ prefix, prefix ∈ PROTOCOL_PREFIXES ∧ PyStr.contains prefix s = true.

(** The mirror base URL a path is resolved against: the [referer] of the
    task context, or the default referer when there is no task or the
    context has no [referer]. *)
Definition active_referer `{Env} (self : HtmlPdfExtractor) : pyval :=
  match task self with
  | None => PyStr DEFAULT_REFERER
  | Some t =>
      match context t !! "referer" with
      | Some v => v
      | None => PyStr DEFAULT_REFERER
      end
  end.

(** The document URL is absolute by construction, in the three ways the
    specification lists: it holds a recognized protocol prefix, or the raw
    value began with two slashes and it begins with the default scheme, or
    the raw value began with a slash and it begins with the referer. *)
Definition absolute_by_construction `{Env} (referer raw out : string) : Prop :=
  has_protocol_prefix out
  ∨ (PyStr.startswith "//" raw = true
     ∧ PyStr.startswith DEFAULT_PROTOCOL_PREFIX out = true)
  ∨ (PyStr.startswith "/" raw = true ∧ PyStr.startswith referer out = true).

(** [seg] is the segment of [text] immediately after the first [c]: it
    runs from there to the next [c], or to the end. *)
Definition first_segment_after (c : ascii) (text seg : string) : Prop :=
  ∃ before,
    PyStr.has_char c before = false ∧ PyStr.has_char c seg = false
    ∧ (text = before +:+ String c seg
       ∨ ∃ rest, text = before +:+ String c (seg +:+ String c rest)).

(** What the title element of the page yields: the segment after the
    first vertical bar of its text when there is a bar, else its whole
    text; nothing when the page has no title element. *)
Definition title_element_yields (soup : soup) (t1 : string) : Prop :=
  match find soup "title" [] with
  | None => t1 = EmptyString
  | Some soup_title =>
      if PyStr.has_char "|" (get_text soup_title)
      then first_segment_after "|" (get_text soup_title) t1
      else t1 = get_text soup_title
  end.


(** [x] is an [ExtractException] that wraps [e]: it was raised while [e]
    was being handled and quotes its message. *)
Definition wraps (x e : exn) : Prop :=
  x = Exn ExtractException ("Error occurs when extracting: " +:+ str e) (Some e).

(** URL or title extraction raises [e]: the [try] block of [extract] is
    left with [e]. *)
Definition extraction_raises `{Env} (self : HtmlPdfExtractor) (e : exn) : Prop :=
  _extract_url self = Raise e
  ∨ ∃ url, _extract_url self = Ok url ∧ _extract_title self = Raise e.

(** The fields of the extractor that no method assigns. *)
Definition same_setup (self self' : HtmlPdfExtractor) : Prop :=
  content self' = content self
  ∧ pdf_tag_selector self' = pdf_tag_selector self
  ∧ pdf_tag_attr self' = pdf_tag_attr self
  ∧ _parser self' = _parser self.

(** The failure handling of [extract] took place between [self] and
    [self']: with a task, the status and the error are in its context and
    the health service received one more call, [increment_failed_times] on
    the referer of the context; without a task nothing changed. *)
Definition failure_recorded (e : exn) (self self' : HtmlPdfExtractor) : Prop :=
  match task self with
  | Some t =>
      task self'
      = Some {| context := <["error" := PyExc e]>
                             (<["status" := PyStr "extracting_failed"]> (context t)) |}
      ∧ calls (service self')
        = (calls (service self)
           ++ [increment_failed_times_call (dict_get (context t) "referer" PyNone)])%list
      ∧ same_setup self self'
  | None => self' = self
  end.

(** [t] is the first tag of the page, in document order, that matches
    the selector. *)
Definition first_match `{Env} (soup : soup) (selector : string) (t : node) : Prop :=
  ∃ before after,
    soup_tags soup = (before ++ t :: after)%list
    ∧ css_match selector t = true
    ∧ ∀ u, u ∈ before → css_match selector u = false.

(** ** A concrete environment

    Pages, a parser that knows them, a selector engine for [#id] and tag
    selectors, and choosers over a list of mirrors, for running the
    extractor on examples. *)

(** Modelled from the spec: a chooser over a list of candidates, as
    section 4.2 describes the interface: [len] is the candidate count and
    [next()] fails with [NoMirrorAvailable] on the empty candidate set.
    The candidates are handed out in the order given. *)
Definition list_chooser (ms : list ScihubUrl.t) : ScihubUrlChooser :=
  {| __len__ := length ms;
     next := match ms with
             | m :: _ => Ok m
             | [] => Raise (Exn (ExceptionSubclass "NoMirrorAvailable") "no mirror" None)
             end |}.

Definition pdf_link (href : string) : node :=
  Tag "a" {["id" := "pdf"; "href" := href]} [].

Definition title_tag (text : string) : node :=
  Tag "title" ∅ [NavigableString text].

Definition page_of (markup : string) : result soup :=
  if decide (markup = "<a id='pdf' href='downloads/a.pdf'>")
  then Ok [pdf_link "downloads/a.pdf"]
  else if decide (markup = "<title>Paper Title | Journal</title><a id='pdf' href='/downloads/a.pdf'>")
  then Ok [title_tag "Paper Title | Journal"; pdf_link "/downloads/a.pdf"]
  else if decide (markup = "<a id='pdf' href='https://host.test/a.pdf#view=FitH'>")
  then Ok [pdf_link "https://host.test/a.pdf#view=FitH"]
  else if decide (markup = "<a id='pdf' href='//example.com/x#frag'>")
  then Ok [pdf_link "//example.com/x#frag"]
  else if decide (markup = "<a id='pdf' href='/x'>")
  then Ok [pdf_link "/x"]
  else if decide (markup = "<p>no link</p>")
  then Ok [Tag "p" ∅ [NavigableString "no link"]]
  else if decide (markup = "<a id='pdf'>here</a>")
  then Ok [Tag "a" {["id" := "pdf"]} [NavigableString "here"]]
  else if decide (markup = "<title>Foo Bar | Great Journal</title>")
  then Ok [title_tag "Foo Bar | Great Journal"]
  else if decide (markup = "<title></title><h1>Fallback Title</h1>")
  then Ok [Tag "title" ∅ []; Tag "h1" ∅ [NavigableString "Fallback Title"]]
  else if decide (markup = "<meta name='citation_title' content='Cited'>")
  then Ok [Tag "meta" {["name" := "citation_title"; "content" := "Cited"]} []]
  else if decide (markup = "<meta property='og:title' content='Graph'>")
  then Ok [Tag "meta" {["property" := "og:title"; "content" := "Graph"]} []]
  else if decide (markup = "<meta name='citation_title'><meta property='og:title' content='Graph'>")
  then Ok [Tag "meta" {["name" := "citation_title"]} [];
           Tag "meta" {["property" := "og:title"; "content" := "Graph"]} []]
  else Raise (Exn (ExceptionSubclass "ParserRejectedMarkup") "unknown page" None).

Definition id_or_tag_match (selector : string) (t : node) : bool :=
  match selector with
  | String "#" id => bool_decide (attrs t !! "id" = Some id)
  | _ => bool_decide (name t = selector)
  end.

Definition demo_configs : gmap string (gmap string string) :=
  {[ "scihub.task" := {[ "scihub_url_chooser_type" := "availability_first" ]};
     "scihub.task.extractor" :=
       {[ "pdf_tag_selector" := "#pdf"; "pdf_tag_attr" := "href" ]} ]}.

Definition demo_env (ms : list ScihubUrl.t) (default_referer : string) : Env :=
  {| BeautifulSoup := fun markup _ => page_of markup;
     css_match := id_or_tag_match;
     PROTOCOL_PREFIXES := ["http://"; "https://"];
     configs := demo_configs;
     scihub_url_choosers := {[ "availability_first" := list_chooser ms ]};
     AvailabilityFirstScihubUrlChooser := list_chooser ms;
     DEFAULT_REFERER := default_referer |}.

Definition m1 : ScihubUrl.t :=
  {| ScihubUrl.url := "https://m1.test"; ScihubUrl.success_times := 0;
     ScihubUrl.failed_times := 0 |}.

(** An extractor on [markup], as [__init__] builds it under
    [demo_configs], for a task whose context holds [ctx] (or no task). *)
Definition demo_extractor (markup : string) (ctx : option (gmap string pyval))
  : HtmlPdfExtractor :=
  {| content := {| HtmlContent.content := markup |};
     task := (fun c => {| context := <["status" := PyStr "extracting"]> c |}) <$> ctx;
     service := {| calls := [] |};
     pdf_tag_selector := "#pdf"; pdf_tag_attr := "href";
     _parser := "html.parser" |}.

Definition m1_ctx : gmap string pyval := {[ "referer" := PyStr "https://m1.test" ]}.

(** The environment of a process whose health store holds the mirror
    [m1] alone, and the one of a process with no persisted mirror. *)
Definition env_m1 : Env := demo_env [m1] "https://m1.test".
Definition env_empty : Env := demo_env [] "https://sci-hub.se".

(** * The command line tool (api/cli.py)

    The commands [download] and [list_domains].  Of their log lines only
    the progress lines of [download] are kept, as pairs of counters; the
    table printing of [list_domains] stops at the rows handed to the table.
    [ScihubTask] (core/task.py), the file system and the mirror database
    are outside the sources: they are operations on a world [W]. *)

Module cli.

(** A source keyword: a DOI or title string, or a PMID integer. *)
Inductive keyword : Type :=
| KwStr (s : string)
| KwInt (n : Z).

(** [f"{source}"] *)
Definition keyword_str (k : keyword) : string :=
  match k with
  | KwStr s => s
  | KwInt n => pretty n
  end.

(** The keyword arguments a task is built from. *)
Record task_kwargs : Type := {
  source_keyword : keyword;
  source_type : string;
  scihub_url : option string;
  out : option string;
  proxies : gmap string string
}.

Class World (W : Type) : Type := {
  (** [open(path, 'r')] and the lines the file object yields, each with
      its line end; or the exception raised on the way *)
  open_lines : W → string → result (list string);
  (** [open(path, 'w')] and the writes of the text; or the exception *)
  write_text : W → string → string → result unit * W;
  (** building the task from the keyword arguments, which is taken to
      return, and [task.run()]: whether [run] returned or
      raised, and [task.context] afterwards *)
  run_task : W → task_kwargs → (result unit * gmap string pyval) * W;
  (** [ScihubUrlService().get_all_urls()] *)
  get_all_urls : W → list ScihubUrl.t
}.

(** The truth value of an optional string: [None] and the empty string
    are false. *)
Definition truthy (s : option string) : bool :=
  match s with
  | Some s => negb (PyStr.falsy s)
  | None => false
  end.

(** ** list_domains *)

(** One step of a stable sort by descending [success_times]: [u] goes
    before the first record that has no more successes than it. *)
Fixpoint insert_by_success (u : ScihubUrl.t) (urls : list ScihubUrl.t) : list ScihubUrl.t :=
  match urls with
  | [] => [u]
  | v :: rest =>
      if Nat.leb (ScihubUrl.success_times v) (ScihubUrl.success_times u)
      then u :: v :: rest
      else v :: insert_by_success u rest
  end.

(** [urls.sort(key=lambda url: url.success_times, reverse=True)]: the
    sort is stable, also in reverse. *)
Definition sort_by_success (urls : list ScihubUrl.t) : list ScihubUrl.t :=
  foldr insert_by_success [] urls.

(** [v] has no more successes than [u]: [u] may stand before [v]. *)
Definition no_more (u v : ScihubUrl.t) : Prop :=
  (ScihubUrl.success_times v ≤ ScihubUrl.success_times u)%nat.

(** The rows appended to the table, in order. *)
Definition list_domains `{World W} (w : W) : list (string * nat * nat) :=
  let urls := sort_by_success (get_all_urls w) in
  (λ url, (ScihubUrl.url url, ScihubUrl.success_times url, ScihubUrl.failed_times url))
    <$> urls.

(** ** os.path.splitext, as posixpath has it *)

(** [s.rfind(c)] for a one-character [c]: the last index of [c], or -1. *)
Fixpoint rfind (c : ascii) (s : string) : Z :=
  match s with
  | EmptyString => (-1)%Z
  | String a s' =>
      let r := rfind c s' in
      if (0 <=? r)%Z then (r + 1)%Z
      else if decide (a = c) then 0%Z else (-1)%Z
  end.

(** The [while] loop of [_splitext]: whether a character other than a dot
    stands among the [n] characters from index [i] on. *)
Fixpoint name_before_dot (p : string) (i n : nat) : bool :=
  match n with
  | 0 => false
  | S n' =>
      match String.get i p with
      | Some "."%char => name_before_dot p (S i) n'
      | _ => true
      end
  end.

Definition splitext (p : string) : string * string :=
  let sepIndex := rfind "/" p in
  let dotIndex := rfind "." p in
  if (sepIndex <? dotIndex)%Z
     && name_before_dot p (Z.to_nat (sepIndex + 1)) (Z.to_nat (dotIndex - (sepIndex + 1)))
  then (PyStr.take (Z.to_nat dotIndex) p, PyStr.drop (Z.to_nat dotIndex) p)
  else (p, EmptyString).

(** ** download *)

(** [s[-1]] *)
Definition last_item (s : string) : result ascii :=
  match PyStr.last_char s with
  | Some c => Ok c
  | None => Raise (Exn IndexError "string index out of range" None)
  end.

(** The DOIs after the input file was read: those of the command line,
    then the stripped non-blank lines of the file; a file that cannot be
    read leaves the DOIs of the command line. *)
Definition load_dois `{World W} (w : W) (doi : list string) (input_file : option string)
  : list string :=
  match input_file with
  | Some path =>
      if truthy input_file then
        match open_lines w path with
        | Ok lines =>
            let file_dois :=
              map PyStr.strip
                  (List.filter (λ line, negb (PyStr.falsy (PyStr.strip line))) lines) in
            (doi ++ file_dois)%list
        | Raise _ => doi
        end
      else doi
  | None => doi
  end.

(** With more than one source, [out] is taken as a directory. *)
Definition directory_out (sources : nat) (out : option string) : result (option string) :=
  if Nat.ltb 1 sources then
    match out with
    | Some o =>
        c ← last_item o;
        if bool_decide (c ≠ "/"%char) then Ok (Some (o +:+ "/")) else Ok (Some o)
    | None => Ok None
    end
  else Ok out.

(** The proxies: those of the configuration, then the one of the command
    line, given as [SCHEME=ADDRESS]. *)
Definition load_proxies `{Env} (proxy : option string) : result (gmap string string) :=
  match configs !! "proxy" with
  | None => Raise (Exn KeyError "'proxy'" None)
  | Some section =>
      let proxies : gmap string string := ∅ in
      let proxies :=
        match section !! "http" with
        | Some v => <["http" := v]> proxies
        | None => proxies
        end in
      let proxies :=
        match section !! "https" with
        | Some v => <["https" := v]> proxies
        | None => proxies
        end in
      match proxy with
      | Some proxy =>
          if PyStr.has_char "=" proxy then
            match firstn 2 (PyStr.split "=" proxy) with
            | [scheme; proxy_address] => Ok (<[scheme := proxy_address]> proxies)
            | _ => Raise (Exn (ExceptionSubclass "ValueError")
                            "not enough values to unpack (expected 2, got 1)" None)
            end
          else Ok proxies
      | None => Ok proxies
      end
  end.

Definition build_tasks (doi : list string) (pmid : list Z) (title : list string)
    (scihub_url out : option string) (proxies : gmap string string) : list task_kwargs :=
  ((λ doi_item, {| source_keyword := KwStr doi_item; source_type := "doi";
                  scihub_url := scihub_url; out := out; proxies := proxies |}) <$> doi)
  ++ ((λ pmid_item, {| source_keyword := KwInt pmid_item; source_type := "pmid";
                       scihub_url := scihub_url; out := out; proxies := proxies |}) <$> pmid)
  ++ ((λ title_item, {| source_keyword := KwStr title_item; source_type := "title";
                        scihub_url := scihub_url; out := out; proxies := proxies |}) <$> title).

(** The counters of the download loop, and the progress lines logged so
    far, each as (successful downloads, papers attempted). *)
Record counters : Type := {
  total_attempted : nat;
  successful_downloads : nat;
  failed_sources : list keyword;
  progress : list (nat * nat)
}.

(** [context.get('status') not in [...]] *)
Definition status_ok (ctx : gmap string pyval) : bool :=
  match dict_get ctx "status" PyNone with
  | PyStr s =>
      negb (bool_decide (s ∈ ["crawling_failed"; "extracting_failed"; "downloading_failed"]))
  | _ => true
  end.

(** The body of the loop for one task, after [task.run()] ended with [r]
    and left the context [ctx]: the new values of [successful_downloads]
    and [failed_sources].  The handler of a raising run reads
    [context['status']] and [context['error']] for its log line. *)
Definition account (r : result unit) (ctx : gmap string pyval) (kw : keyword)
    (successful : nat) (failed : list keyword) : result (nat * list keyword) :=
  match r with
  | Ok _ =>
      if status_ok ctx then Ok (S successful, failed)
      else Ok (successful, (failed ++ [kw])%list)
  | Raise _ =>
      match ctx !! "status" with
      | None => Raise (Exn KeyError "'status'" None)
      | Some _ =>
          match ctx !! "error" with
          | None => Raise (Exn KeyError "'error'" None)
          | Some _ => Ok (successful, (failed ++ [kw])%list)
          end
      end
  end.

(** Whether the progress line is logged after attempt number [total]:
    every fifth attempt that is not the last one, and the last one. *)
Definition logs_progress (len_tasks total : nat) : bool :=
  (Nat.eqb (total mod 5) 0 && Nat.ltb total len_tasks) || Nat.eqb total len_tasks.

(** [for task_kwargs in tasks: ...], with [len_tasks] the length of the
    whole task list. *)
Fixpoint run_tasks `{World W} (len_tasks : nat) (tasks : list task_kwargs)
    (st : counters) (w : W) : result counters * W :=
  match tasks with
  | [] => (Ok st, w)
  | kwargs :: rest =>
      let total := S (total_attempted st) in
      let '((r, ctx), w) := run_task w kwargs in
      match account r ctx (source_keyword kwargs)
                    (successful_downloads st) (failed_sources st) with
      | Raise e => (Raise e, w)
      | Ok (successful, failed) =>
          let logged :=
            if logs_progress len_tasks total
            then (progress st ++ [(successful, total)])%list
            else progress st in
          run_tasks len_tasks rest
            {| total_attempted := total; successful_downloads := successful;
               failed_sources := failed; progress := logged |} w
      end
  end.

Definition failed_file_name (input_file : string) : string :=
  let '(base_name, ext) := splitext input_file in
  base_name +:+ "_failed" +:+ ext.

(** What the failed-sources file is given to hold: one source per line. *)
Definition failed_file_text (failed : list keyword) : string :=
  String.concat EmptyString (map (λ source, keyword_str source +:+ String "010" EmptyString) failed).

(** What [download] leaves: the tasks it built, the counters at the end,
    and the name of the failed-sources file when it set out to write
    one. *)
Record report : Type := {
  tasks : list task_kwargs;
  final : counters;
  failed_file : option string
}.

(** [download] up to the task list: the DOIs of the input file are
    added, the chooser type is read for the log when no mirror is given,
    [out] is made a directory for several sources, the proxies are
    loaded. *)
Definition prepare `{Env} `{World W} (doi : list string) (pmid : list Z)
    (title : list string) (out scihub_url proxy input_file : option string) (w : W)
  : result (list task_kwargs) :=
  let doi := load_dois w doi input_file in
  _ ← match scihub_url with
      | None => configs_get "scihub.task" "scihub_url_chooser_type" ≫= λ _, Ok tt
      | Some _ => Ok tt
      end;
  out ← directory_out (length doi + length pmid + length title) out;
  proxies ← load_proxies proxy;
  Ok (build_tasks doi pmid title scihub_url out proxies).

Definition start : counters :=
  {| total_attempted := 0; successful_downloads := 0;
     failed_sources := []; progress := [] |}.

Definition download `{Env} `{World W} (doi : list string) (pmid : list Z)
    (title : list string) (out scihub_url proxy input_file : option string) (w : W)
  : result report * W :=
  match prepare doi pmid title out scihub_url proxy input_file w with
  | Raise e => (Raise e, w)
  | Ok tasks =>
      match run_tasks (length tasks) tasks start w with
      | (Raise e, w) => (Raise e, w)
      | (Ok st, w) =>
          match failed_sources st, input_file with
          | _ :: _, Some path =>
              if truthy input_file then
                let failed_file := failed_file_name path in
                let '(_, w) :=
                  write_text w failed_file (failed_file_text (failed_sources st)) in
                (Ok {| tasks := tasks; final := st; failed_file := Some failed_file |}, w)
              else (Ok {| tasks := tasks; final := st; failed_file := None |}, w)
          | _, _ => (Ok {| tasks := tasks; final := st; failed_file := None |}, w)
          end
      end
  end.

(** ** A world for examples

    Files are lists of lines; a task on a DOI that starts with [10.]
    succeeds, a task on another string fails in extraction and raises with
    status and error recorded, a task on a PMID ends without raising in
    status [crawling_failed]. *)
Record demo_world : Type := {
  demo_files : gmap string (list string);
  demo_written : list (string * string);
  demo_ran : list keyword;
  demo_urls : list ScihubUrl.t
}.

Definition demo_error : exn :=
  Exn ExtractException "Error occurs when extracting: no pdf tag" None.

Definition demo_run (k : keyword) : result unit * gmap string pyval :=
  match k with
  | KwStr s =>
      if PyStr.startswith "10." s then (Ok tt, {[ "status" := PyStr "done" ]})
      else (Raise demo_error,
            {[ "status" := PyStr "extracting_failed"; "error" := PyExc demo_error ]})
  | KwInt _ => (Ok tt, {[ "status" := PyStr "crawling_failed" ]})
  end.

#[global] Instance demo_World : World demo_world := {|
  open_lines w path :=
    match demo_files w !! path with
    | Some lines => Ok lines
    | None => Raise (Exn (ExceptionSubclass "FileNotFoundError") path None)
    end;
  write_text w path text :=
    (Ok tt, {| demo_files := demo_files w;
               demo_written := (demo_written w ++ [(path, text)])%list;
               demo_ran := demo_ran w; demo_urls := demo_urls w |});
  run_task w kwargs :=
    (demo_run (source_keyword kwargs),
     {| demo_files := demo_files w; demo_written := demo_written w;
        demo_ran := (demo_ran w ++ [source_keyword kwargs])%list;
        demo_urls := demo_urls w |});
  get_all_urls w := demo_urls w
|}.

Definition demo_start : demo_world :=
  {| demo_files := {[ "dois.txt" := [" 10.1/a" +:+ String "010" EmptyString;
                                      String "010" EmptyString;
                                      "bad-doi  " +:+ String "010" EmptyString;
                                      "10.1/b"] ]};
     demo_written := []; demo_ran := [];
     demo_urls := [ {| ScihubUrl.url := "https://a.test"; ScihubUrl.success_times := 1;
                       ScihubUrl.failed_times := 4 |};
                    {| ScihubUrl.url := "https://b.test"; ScihubUrl.success_times := 3;
                       ScihubUrl.failed_times := 0 |};
                    {| ScihubUrl.url := "https://c.test"; ScihubUrl.success_times := 1;
                       ScihubUrl.failed_times := 0 |} ] |}.

(** The demo configuration with a proxy section. *)
Definition env_proxy : Env :=
  {| BeautifulSoup := λ markup _, page_of markup;
     css_match := id_or_tag_match;
     PROTOCOL_PREFIXES := ["http://"; "https://"];
     configs := <["proxy" := {[ "http" := "http://127.0.0.1:7890" ]}]> demo_configs;
     scihub_url_choosers := {[ "availability_first" := list_chooser [m1] ]};
     AvailabilityFirstScihubUrlChooser := list_chooser [m1];
     DEFAULT_REFERER := "https://m1.test" |}.

End cli.

(** * Properties *)

(** ** Strings *)

Section pystr_facts.
Import PyStr.

Lemma app_cons (c : ascii) (x y : string) : String c x +:+ y = String c (x +:+ y).
Proof. reflexivity. Qed.

Lemma app_empty_l (y : string) : EmptyString +:+ y = y.
Proof. reflexivity. Qed.

Lemma startswith_app (p r : string) : startswith p (p +:+ r) = true.
Proof.
  induction p as [|a p IH]; simpl; [done|].
  destruct (decide (a = a)); [exact IH | done].
Qed.

Lemma startswith_inv (p s : string) :
  startswith p s = true → ∃ r, s = p +:+ r.
Proof.
  revert s. induction p as [|a p IH]; intros s Hs; simpl in *.
  - by exists s.
  - destruct s as [|b s]; [done|].
    destruct (decide (a = b)) as [->|]; [|done].
    destruct (IH _ Hs) as [r ->]. by exists r.
Qed.

Lemma take_drop (n : nat) (s : string) : s = take n s +:+ drop n s.
Proof.
  revert s. induction n as [|n IH]; intros [|c s]; simpl; try done.
  change (String c s = String c (take n s +:+ drop n s)). by rewrite <- IH.
Qed.

Lemma length_take (n : nat) (s : string) :
  String.length (take n s) = n `min` String.length s.
Proof.
  revert s. induction n as [|n IH]; intros [|c s]; simpl; try done.
  by rewrite IH.
Qed.

Lemma length_lstrip (s : string) : (String.length (lstrip s) ≤ String.length s)%nat.
Proof.
  induction s as [|c s IH]; simpl; [done|].
  destruct (isspace c); simpl; lia.
Qed.

Lemma length_rstrip (s : string) : (String.length (rstrip s) ≤ String.length s)%nat.
Proof.
  induction s as [|c s IH]; simpl; [done|].
  destruct (rstrip s) eqn:E; [destruct (isspace c)|]; simpl in *; lia.
Qed.

Lemma length_strip (s : string) : (String.length (strip s) ≤ String.length s)%nat.
Proof.
  unfold strip. etrans; [apply length_rstrip | apply length_lstrip].
Qed.

(** Replacing by a one-character string keeps every position. *)
Lemma length_re_sub_class (cls : list ascii) (r : ascii) (s : string) :
  String.length (re_sub_class cls (String r EmptyString) s) = String.length s.
Proof.
  induction s as [|c s IH]; simpl; [done|].
  case_bool_decide; rewrite app_cons, app_empty_l; simpl; by rewrite IH.
Qed.

Lemma get_re_sub_class (cls : list ascii) (r : ascii) (s : string) (i : nat) :
  String.get i (re_sub_class cls (String r EmptyString) s)
  = (λ c, if bool_decide (c ∈ cls) then r else c) <$> String.get i s.
Proof.
  revert i. induction s as [|c s IH]; intros i; simpl; [done|].
  destruct (bool_decide (c ∈ cls)) eqn:Hc; rewrite app_cons, app_empty_l;
    destruct i; simpl; rewrite ?Hc; try done; apply IH.
Qed.

Lemma lstrip_spec (s : string) :
  ∃ l, all_space l = true ∧ s = l +:+ lstrip s
       ∧ ∀ c, String.get 0 (lstrip s) = Some c → isspace c = false.
Proof.
  induction s as [|c s (l & Hl & Hs & Hc)]; simpl.
  - by exists EmptyString.
  - destruct (isspace c) eqn:E.
    + exists (String c l). simpl. rewrite E, Hl, app_cons. by rewrite <- Hs.
    + exists EmptyString. repeat split. simpl. congruence.
Qed.

Lemma rstrip_spec (s : string) :
  ∃ r, all_space r = true ∧ s = rstrip s +:+ r
       ∧ ∀ c, last_char (rstrip s) = Some c → isspace c = false.
Proof.
  induction s as [|c s (r & Hr & Hs & Hc)]; simpl.
  - by exists EmptyString.
  - destruct (rstrip s) as [|d x] eqn:E.
    + rewrite app_empty_l in Hs. subst r.
      destruct (isspace c) eqn:Ec.
      * exists (String c s). simpl. by rewrite Ec, Hr.
      * exists s. repeat split; [done|]. simpl. congruence.
    + exists r. rewrite app_cons. rewrite <- Hs. repeat split; [done|].
      intros c'. apply Hc.
Qed.

Lemma rstrip_first_inv (s : string) (c : ascii) :
  String.get 0 (rstrip s) = Some c → String.get 0 s = Some c.
Proof.
  destruct s as [|a s]; simpl; [done|].
  destruct (rstrip s); [destruct (isspace a)|]; simpl; congruence.
Qed.

(** [strip] removes a run of whitespace at each end and leaves a string
    that neither starts nor ends with whitespace. *)
Lemma strip_spec (s : string) :
  ∃ l r, all_space l = true ∧ all_space r = true
         ∧ s = l +:+ strip s +:+ r
         ∧ (∀ c, String.get 0 (strip s) = Some c → isspace c = false)
         ∧ (∀ c, last_char (strip s) = Some c → isspace c = false).
Proof.
  destruct (lstrip_spec s) as (l & Hl & Hs & Hfirst).
  destruct (rstrip_spec (lstrip s)) as (r & Hr & Hs' & Hlast).
  exists l, r. unfold strip. repeat split; try done.
  - by rewrite <- Hs'.
  - intros c Hc. apply Hfirst. by apply rstrip_first_inv.
Qed.

Lemma app_assoc_str (x y z : string) : (x +:+ y) +:+ z = x +:+ (y +:+ z).
Proof.
  induction x as [|c x IH]; [done|]. by rewrite !app_cons, IH.
Qed.

Lemma startswith_app_r (p s r : string) :
  startswith p s = true → startswith p (s +:+ r) = true.
Proof.
  intros [x ->]%startswith_inv. rewrite app_assoc_str. apply startswith_app.
Qed.

(** The first segment of a split holds no separator; the string is that
    segment alone, or the segment, a separator and a rest that splits into
    the remaining segments. *)
Lemma split_step (c : ascii) (s : string) :
  ∃ h t, split c s = h :: t ∧ has_char c h = false
         ∧ match t with
           | [] => s = h
           | _ => ∃ s', s = h +:+ String c s' ∧ split c s' = t
           end.
Proof.
  induction s as [|a s (h & t & Hsp & Hh & Ht)]; simpl.
  - by exists EmptyString, [].
  - destruct (decide (a = c)) as [->|Hne].
    + exists EmptyString, (split c s). repeat split.
      rewrite Hsp. by exists s.
    + rewrite Hsp. exists (String a h), t. repeat split.
      * simpl. by destruct (decide (a = c)).
      * destruct t; [by subst|].
        destruct Ht as (s' & -> & Hs'). by exists s'.
Qed.

Lemma all_space_app (x y : string) :
  all_space (x +:+ y) = all_space x && all_space y.
Proof.
  induction x as [|c x IH]; [done|]. rewrite app_cons. simpl.
  by rewrite IH, andb_assoc.
Qed.

Lemma rstrip_empty (s : string) : rstrip s = EmptyString ↔ all_space s = true.
Proof.
  induction s as [|c s IH]; simpl; [done|].
  destruct (rstrip s) eqn:E.
  - destruct (isspace c); simpl; [|done]. by rewrite <- IH.
  - destruct (isspace c); simpl; [|done]. by rewrite <- IH.
Qed.

(** [s.strip()] is empty exactly when [s] is empty or whitespace-only. *)
Lemma strip_empty (s : string) : strip s = EmptyString ↔ all_space s = true.
Proof.
  unfold strip. rewrite rstrip_empty.
  destruct (lstrip_spec s) as (l & Hl & Hs & _).
  rewrite Hs at 2. rewrite all_space_app, Hl. done.
Qed.


End pystr_facts.

(** ** _clean_title *)

Lemma elem_of_rstr (c : ascii) :
  c ∈ rstr ↔ (c = "/" ∨ c = "\" ∨ c = ":" ∨ c = "*" ∨ c = "?" ∨ c = "034"
              ∨ c = "<" ∨ c = ">" ∨ c = "|")%char.
Proof. unfold rstr. rewrite !elem_of_cons, elem_of_nil. tauto. Qed.

Lemma clean_title_unfold (title : string) :
  _clean_title title
  = PyStr.strip (PyStr.take 200 (PyStr.re_sub_class rstr " " title)).
Proof. by destruct title. Qed.

(** C7.  For every input string, [_clean_title] replaces each of the
    characters slash, backslash, colon, star, question mark, double quote,
    less-than, greater-than and vertical bar by one space, position by
    position (so the length is kept: replaced, not removed), keeps the
    first 200 characters of that, and trims the whitespace at both ends;
    the result is at most 200 characters long.  It is a total function: a
    title that cleans to the empty string is returned as the empty string. *)
Theorem clean_title_replace_truncate_trim (title : string) :
  let replaced := PyStr.re_sub_class rstr " " title in
  let cut := PyStr.take 200 replaced in
  (String.length replaced = String.length title
   ∧ ∀ i, String.get i replaced
          = (λ c, if bool_decide (c ∈ rstr) then " "%char else c) <$> String.get i title)
  ∧ (cut = PyStr.take 200 replaced
     ∧ String.length cut = 200 `min` String.length title
     ∧ ∃ rest, replaced = cut +:+ rest)
  ∧ (∃ l r, PyStr.all_space l = true ∧ PyStr.all_space r = true
            ∧ cut = l +:+ _clean_title title +:+ r
            ∧ (∀ c, String.get 0 (_clean_title title) = Some c → PyStr.isspace c = false)
            ∧ (∀ c, PyStr.last_char (_clean_title title) = Some c → PyStr.isspace c = false))
  ∧ (String.length (_clean_title title) ≤ 200)%nat
  ∧ _clean_title "My/Title:Here" = "My Title Here"
  ∧ _clean_title "" = ""
  ∧ _clean_title " ?:| " = "".
Proof.
  intros replaced cut. repeat split; try reflexivity.
  - apply length_re_sub_class.
  - intros i. apply get_re_sub_class.
  - unfold cut. rewrite length_take. unfold replaced.
    by rewrite length_re_sub_class.
  - exists (PyStr.drop 200 replaced). apply take_drop.
  - rewrite clean_title_unfold. apply strip_spec.
  - rewrite clean_title_unfold. etrans; [apply length_strip|].
    fold replaced. rewrite length_take. lia.
Qed.


(** ** The result monad *)

Lemma bind_Ok {A B} (a : A) (k : A → result B) : (Ok a ≫= k) = k a.
Proof. reflexivity. Qed.

Lemma bind_Raise {A B} (e : exn) (k : A → result B) : (Raise e ≫= k) = Raise e.
Proof. reflexivity. Qed.

Lemma getitem_0 (x : string) (l : list string) : getitem (x :: l) 0 = Ok x.
Proof. reflexivity. Qed.

(** ** Searching the page *)

Lemma find_None_iff {A} (f : A → bool) (l : list A) :
  List.find f l = None ↔ ∀ x, x ∈ l → f x = false.
Proof.
  induction l as [|a l IH]; simpl.
  - split; [|done]. intros _ x Hx. by apply elem_of_nil in Hx.
  - destruct (f a) eqn:Ha.
    + split; [done|]. intros Hall. rewrite Hall in Ha; [done|]. by left.
    + rewrite IH. split.
      * intros Hall x [->|Hx]%elem_of_cons; auto.
      * intros Hall x Hx. apply Hall. by right.
Qed.

Lemma find_Some_iff {A} (f : A → bool) (l : list A) (a : A) :
  List.find f l = Some a
  ↔ ∃ before after, l = (before ++ a :: after)%list ∧ f a = true
                    ∧ ∀ u, u ∈ before → f u = false.
Proof.
  induction l as [|b l IH]; simpl.
  - split; [done|]. intros ([|??] & ? & ? & _); done.
  - destruct (f b) eqn:Hb.
    + split.
      * intros [= ->]. exists [], l. repeat split; [done|].
        intros u Hu. by apply elem_of_nil in Hu.
      * intros ([|c before] & after & Hl & Ha & Hbefore).
        -- by injection Hl as ->.
        -- injection Hl as -> _. rewrite Hbefore in Hb; [done|]. by left.
    + rewrite IH. split.
      * intros (before & after & -> & Ha & Hbefore).
        exists (b :: before), after. repeat split; [done|].
        intros u [->|Hu]%elem_of_cons; auto.
      * intros ([|c before] & after & Hl & Ha & Hbefore).
        -- injection Hl as -> _. congruence.
        -- injection Hl as -> ->. exists before, after. repeat split; [done|].
           intros u Hu. apply Hbefore. by right.
Qed.

(** ** URL resolution *)

Section url_facts.
Context `{Env}.
Implicit Types (self : HtmlPdfExtractor) (raw url out : string).

Lemma split_fragment raw :
  ∃ url segs, PyStr.split "#" raw = url :: segs ∧ fragment_stripped raw url.
Proof.
  destruct (split_step "#" raw) as (h & t & Hsp & Hh & Ht).
  exists h, t. split; [done|]. split; [done|].
  destruct t; [by left|]. destruct Ht as (s' & -> & _). right. by exists s'.
Qed.

Lemma fragment_stripped_unique raw url url' :
  fragment_stripped raw url → fragment_stripped raw url' → url = url'.
Proof.
  revert url url'. induction raw as [|a raw IH]; intros u u' [Hu Hr] [Hu' Hr'].
  - assert (∀ x, ("" = x ∨ ∃ f, "" = x +:+ String "#" f) → x = "") as E.
    { intros [|??] [?|[? ?]]; done. }
    by rewrite (E u Hr), (E u' Hr').
  - assert (∀ x, PyStr.has_char "#" x = false →
                 (String a raw = x ∨ ∃ f, String a raw = x +:+ String "#" f) →
                 (x = "" ∧ a = "#"%char)
                 ∨ (∃ x', x = String a x' ∧ a ≠ "#"%char ∧ fragment_stripped raw x')) as E.
    { intros [|b x] Hx Hc.
      - left. destruct Hc as [?|[f Hf]]; [done|].
        rewrite app_empty_l in Hf. by injection Hf.
      - right. simpl in Hx. destruct (decide (b = "#"%char)); [done|].
        exists x. destruct Hc as [[= -> ->]|[f [= -> ->]]].
        + repeat split; try done. by left.
        + repeat split; try done. right. by exists f. }
    destruct (E u Hu Hr) as [[-> ?]|(x & -> & ? & ?)],
             (E u' Hu' Hr') as [[-> ?]|(x' & -> & ? & ?)]; try done.
    f_equal. by apply IH.
Qed.

(** [_extract_url] after [_extract_raw_url] returned [raw], spelled out. *)
Lemma extract_url_unfold self raw :
  _extract_raw_url self = Ok raw →
  _extract_url self =
    if existsb (λ prefix, PyStr.contains prefix raw) PROTOCOL_PREFIXES then Ok raw
    else url ← getitem (PyStr.split "#" raw) 0;
         if PyStr.startswith "//" url then
           Ok (DEFAULT_PROTOCOL_PREFIX +:+ PyStr.drop 2 url)
         else if PyStr.startswith "/" url then add_str (active_referer self) url
         else Ok url.
Proof.
  intros Hraw. unfold _extract_url, active_referer, dict_get. rewrite Hraw. simpl.
  destruct (existsb _ _); [done|].
  destruct (getitem _ _); simpl; [|done].
  repeat case_match; done.
Qed.

Lemma existsb_has_protocol_prefix raw :
  existsb (λ prefix, PyStr.contains prefix raw) PROTOCOL_PREFIXES = true
  ↔ has_protocol_prefix raw.
Proof.
  rewrite existsb_exists. unfold has_protocol_prefix.
  split; intros (p & Hp & Hc); exists p; by rewrite ?list_elem_of_In in *.
Qed.

Lemma no_protocol_prefix raw :
  existsb (λ prefix, PyStr.contains prefix raw) PROTOCOL_PREFIXES = false
  ↔ ¬ has_protocol_prefix raw.
Proof.
  rewrite <- existsb_has_protocol_prefix. by destruct (existsb _ _).
Qed.

(** C4.  A raw value that holds a recognized protocol prefix goes through
    URL resolution unchanged: [_extract_url] returns exactly the string
    [_extract_raw_url] read, fragment included, since nothing is split off
    on this path. *)
Theorem extract_url_absolute_unchanged self raw :
  _extract_raw_url self = Ok raw →
  has_protocol_prefix raw →
  _extract_url self = Ok raw.
Proof.
  intros Hraw Hp. rewrite (extract_url_unfold _ _ Hraw).
  apply existsb_has_protocol_prefix in Hp. by rewrite Hp.
Qed.

(** C5.  A raw value without a recognized protocol prefix first loses its
    fragment (everything from the first [#]).  If what is left starts with
    two slashes, they are replaced by the default scheme [https://]; if it
    starts with one slash only, the referer of the task context is put in
    front of it, and the process-wide default referer when there is no
    task or the context has no referer. *)
Theorem extract_url_resolves_relative self raw :
  _extract_raw_url self = Ok raw →
  ¬ has_protocol_prefix raw →
  ∃ url,
    fragment_stripped raw url
    ∧ (∀ rest, url = "//" +:+ rest → _extract_url self = Ok ("https://" +:+ rest))
    ∧ (PyStr.startswith "/" url = true → PyStr.startswith "//" url = false →
       (∀ t referer,
          task self = Some t → context t !! "referer" = Some (PyStr referer) →
          _extract_url self = Ok (referer +:+ url))
       ∧ ((task self = None ∨ ∃ t, task self = Some t ∧ context t !! "referer" = None) →
          _extract_url self = Ok (DEFAULT_REFERER +:+ url))).
Proof.
  intros Hraw Hp. rewrite (extract_url_unfold _ _ Hraw).
  apply no_protocol_prefix in Hp. rewrite Hp.
  destruct (split_fragment raw) as (url & segs & Hsp & Hfrag).
  exists url. split; [done|]. rewrite Hsp, getitem_0, bind_Ok.
  split.
  - intros rest ->. by rewrite startswith_app.
  - intros H1 H2. rewrite H1, H2. unfold active_referer. split.
    + intros t referer -> ->. done.
    + intros [->|(t & -> & ->)]; done.
Qed.

(** C1, as the code has it.  When [_extract_url] returns, the string it
    returns is of one of four kinds: the raw value itself, which holds a
    recognized protocol prefix; or, for a raw value without such a prefix
    and [url] the raw value without its fragment: the default scheme
    followed by what comes after the two slashes [url] starts with; the
    referer (of the task context, else the default one) followed by [url],
    which starts with one slash; or [url] itself, unchanged, when it starts
    with no slash.  The last kind is a relative URL. *)
Theorem extract_url_shape self raw out :
  _extract_raw_url self = Ok raw →
  _extract_url self = Ok out →
  (has_protocol_prefix out ∧ out = raw)
  ∨ ∃ url,
      fragment_stripped raw url ∧ ¬ has_protocol_prefix raw
      ∧ ((∃ rest, url = "//" +:+ rest ∧ out = DEFAULT_PROTOCOL_PREFIX +:+ rest)
         ∨ (PyStr.startswith "/" url = true ∧ PyStr.startswith "//" url = false
            ∧ ∃ referer, active_referer self = PyStr referer ∧ out = referer +:+ url)
         ∨ (PyStr.startswith "/" url = false ∧ out = url)).
Proof.
  intros Hraw. rewrite (extract_url_unfold _ _ Hraw).
  destruct (existsb _ _) eqn:Hp.
  - intros [= <-]. left. by apply existsb_has_protocol_prefix in Hp.
  - apply no_protocol_prefix in Hp.
    destruct (split_fragment raw) as (url & segs & Hsp & Hfrag).
    rewrite Hsp, getitem_0, bind_Ok. intros Hout. right.
    exists url. do 2 (split; [done|]).
    destruct (PyStr.startswith "//" url) eqn:H2.
    + left. injection Hout as <-.
      destruct (startswith_inv _ _ H2) as [rest ->]. by exists rest.
    + destruct (PyStr.startswith "/" url) eqn:H1.
      * right; left. do 2 (split; [done|]).
        destruct (active_referer self) as [| referer | |]; try done.
        injection Hout as <-. by exists referer.
      * right; right. injection Hout as <-. done.
Qed.

End url_facts.

Example resolve_double_slash :
  @_extract_url env_m1 (demo_extractor "<a id='pdf' href='//example.com/x#frag'>" (Some m1_ctx))
  = Ok "https://example.com/x".
Proof. reflexivity. Qed.

Example resolve_slash_task_referer :
  @_extract_url env_empty (demo_extractor "<a id='pdf' href='/x'>" (Some m1_ctx))
  = Ok "https://m1.test/x".
Proof. reflexivity. Qed.

Example resolve_slash_no_task :
  @_extract_url env_empty (demo_extractor "<a id='pdf' href='/x'>" None)
  = Ok "https://sci-hub.se/x".
Proof. reflexivity. Qed.

Example resolve_slash_no_referer :
  @_extract_url env_empty (demo_extractor "<a id='pdf' href='/x'>" (Some ∅))
  = Ok "https://sci-hub.se/x".
Proof. reflexivity. Qed.

(** A referer that is not a string makes the concatenation fail. *)
Example resolve_slash_referer_none :
  @_extract_url env_empty
     (demo_extractor "<a id='pdf' href='/x'>" (Some {[ "referer" := PyNone ]}))
  = Raise (Exn TypeError "unsupported operand type(s) for +: 'NoneType' and 'str'" None).
Proof. reflexivity. Qed.

Lemma extract_url_absolute_unchanged_witness :
  @_extract_url env_m1
     (demo_extractor "<a id='pdf' href='https://host.test/a.pdf#view=FitH'>" (Some m1_ctx))
  = Ok "https://host.test/a.pdf#view=FitH".
Proof.
  apply (@extract_url_absolute_unchanged env_m1).
  - reflexivity.
  - exists "https://". split; [|reflexivity].
    apply list_elem_of_In. simpl. tauto.
Defined.

Lemma not_prefixed_demo (E : Env) (raw : string) :
  @PROTOCOL_PREFIXES E = ["http://"; "https://"] →
  PyStr.contains "http://" raw = false →
  PyStr.contains "https://" raw = false →
  ¬ @has_protocol_prefix E raw.
Proof.
  intros HE H1 H2 (p & Hp & Hc). rewrite HE in Hp.
  apply list_elem_of_In in Hp. simpl in Hp.
  destruct Hp as [<-|[<-|[]]]; congruence.
Qed.

Lemma extract_url_resolves_relative_witness :
  ∃ url,
    fragment_stripped "//example.com/x#frag" url
    ∧ (∀ rest, url = "//" +:+ rest →
       @_extract_url env_m1
          (demo_extractor "<a id='pdf' href='//example.com/x#frag'>" (Some m1_ctx))
       = Ok ("https://" +:+ rest))
    ∧ (PyStr.startswith "/" url = true → PyStr.startswith "//" url = false →
       (∀ t referer,
          task (demo_extractor "<a id='pdf' href='//example.com/x#frag'>" (Some m1_ctx))
          = Some t →
          context t !! "referer" = Some (PyStr referer) →
          @_extract_url env_m1
             (demo_extractor "<a id='pdf' href='//example.com/x#frag'>" (Some m1_ctx))
          = Ok (referer +:+ url))
       ∧ ((task (demo_extractor "<a id='pdf' href='//example.com/x#frag'>" (Some m1_ctx))
           = None
           ∨ ∃ t, task (demo_extractor "<a id='pdf' href='//example.com/x#frag'>"
                                       (Some m1_ctx)) = Some t
                  ∧ context t !! "referer" = None) →
          @_extract_url env_m1
             (demo_extractor "<a id='pdf' href='//example.com/x#frag'>" (Some m1_ctx))
          = Ok (@DEFAULT_REFERER env_m1 +:+ url))).
Proof.
  apply (@extract_url_resolves_relative env_m1).
  - reflexivity.
  - apply not_prefixed_demo; reflexivity.
Defined.

Lemma extract_url_shape_witness :
  (@has_protocol_prefix env_m1 "downloads/a.pdf" ∧ "downloads/a.pdf" = "downloads/a.pdf")
  ∨ ∃ url,
      fragment_stripped "downloads/a.pdf" url
      ∧ ¬ @has_protocol_prefix env_m1 "downloads/a.pdf"
      ∧ ((∃ rest, url = "//" +:+ rest
                  ∧ "downloads/a.pdf" = DEFAULT_PROTOCOL_PREFIX +:+ rest)
         ∨ (PyStr.startswith "/" url = true ∧ PyStr.startswith "//" url = false
            ∧ ∃ referer,
                @active_referer env_m1
                   (demo_extractor "<a id='pdf' href='downloads/a.pdf'>" (Some m1_ctx))
                = PyStr referer
                ∧ "downloads/a.pdf" = referer +:+ url)
         ∨ (PyStr.startswith "/" url = false ∧ "downloads/a.pdf" = url)).
Proof.
  apply (@extract_url_shape env_m1
           (demo_extractor "<a id='pdf' href='downloads/a.pdf'>" (Some m1_ctx))
           "downloads/a.pdf" "downloads/a.pdf"); reflexivity.
Defined.

(** The link [downloads/a.pdf] is read from the page and returned as it
    is: it holds no protocol prefix and starts neither with the default
    scheme nor with the referer [https://m1.test] of the task. *)
Lemma relative_url_returned_relative :
  @_extract_raw_url env_m1
     (demo_extractor "<a id='pdf' href='downloads/a.pdf'>" (Some m1_ctx))
  = Ok "downloads/a.pdf"
  ∧ @_extract_url env_m1
       (demo_extractor "<a id='pdf' href='downloads/a.pdf'>" (Some m1_ctx))
    = Ok "downloads/a.pdf"
  ∧ ¬ @absolute_by_construction env_m1
        "https://m1.test" "downloads/a.pdf" "downloads/a.pdf".
Proof.
  do 2 (split; [reflexivity|]).
  intros [Hp|[[H _]|[H _]]]; [|done..].
  revert Hp. apply not_prefixed_demo; reflexivity.
Qed.

(** ** Title extraction *)

Section title_facts.
Context `{Env}.
Implicit Types (self : HtmlPdfExtractor) (soup : soup).

(** Method 1 never fails: the index 1 is read only from a text that holds
    a vertical bar, which splits into two segments at least. *)
Lemma title_from_title_tag_yields soup :
  ∃ t1, title_from_title_tag soup "" = Ok t1 ∧ title_element_yields soup t1.
Proof.
  unfold title_from_title_tag, title_element_yields.
  destruct (find soup "title" []) as [soup_title|]; [|by exists ""].
  set (text := get_text soup_title).
  destruct (PyStr.has_char "|" text) eqn:Hbar.
  - assert (Nat.ltb 0 (String.length text) = true) as ->.
    { destruct text; [done|]. reflexivity. }
    destruct (split_step "|" text) as (before & t & Hsp & Hb & Ht).
    destruct t as [|seg t].
    { subst text. congruence. }
    destruct Ht as (s' & Htext & Hs').
    destruct (split_step "|" s') as (seg' & t' & Hsp' & Hseg & Ht').
    rewrite Hs' in Hsp'. injection Hsp' as <- <-.
    exists seg. rewrite Hsp. split; [done|].
    exists before. do 2 (split; [done|]).
    destruct t as [|x t].
    + left. by rewrite Htext, Ht'.
    + right. destruct Ht' as (rest & -> & _). by exists rest.
  - destruct (Nat.ltb 0 (String.length text)) eqn:Hlen; [by exists text|].
    exists "". split; [done|]. by destruct text.
Qed.

Lemma extract_title_unfold self soup t1 :
  BeautifulSoup (HtmlContent.content (content self)) (_parser self) = Ok soup →
  title_from_title_tag soup "" = Ok t1 →
  _extract_title self
  = Ok (_clean_title (title_from_meta soup (title_from_h1 soup t1))).
Proof.
  intros Hsoup Ht1. unfold _extract_title. by rewrite Hsoup, bind_Ok, Ht1, bind_Ok.
Qed.


End title_facts.

Example title_after_bar :
  @_extract_title env_m1 (demo_extractor "<title>Foo Bar | Great Journal</title>" None)
  = Ok "Great Journal".
Proof. reflexivity. Qed.

Example title_from_heading :
  @_extract_title env_m1 (demo_extractor "<title></title><h1>Fallback Title</h1>" None)
  = Ok "Fallback Title".
Proof. reflexivity. Qed.

Example title_from_citation_meta :
  @_extract_title env_m1 (demo_extractor "<meta name='citation_title' content='Cited'>" None)
  = Ok "Cited".
Proof. reflexivity. Qed.

Example title_from_og_meta :
  @_extract_title env_m1 (demo_extractor "<meta property='og:title' content='Graph'>" None)
  = Ok "Graph".
Proof. reflexivity. Qed.

(** A [citation_title] meta element without content ends the search: the
    [og:title] element after it is not read. *)
Example title_citation_meta_without_content :
  @_extract_title env_m1
     (demo_extractor
        "<meta name='citation_title'><meta property='og:title' content='Graph'>" None)
  = Ok "".
Proof. reflexivity. Qed.

(** ** extract *)

Section extract_facts.
Context `{Env}.
Implicit Types (self : HtmlPdfExtractor) (e x : exn).

Lemma extract_returns self url title :
  _extract_url self = Ok url →
  _extract_title self = Ok title →
  extract self
  = (Ok {| PdfUrlTitleInformation.url := url; PdfUrlTitleInformation.title := title |},
     match task self with
     | Some t =>
         {| content := content self;
            task := Some {| context :=
                              <["info" := PyInfo {| PdfUrlTitleInformation.url := url;
                                                    PdfUrlTitleInformation.title := title |}]>
                                (context t) |};
            service := service self;
            pdf_tag_selector := pdf_tag_selector self;
            pdf_tag_attr := pdf_tag_attr self;
            _parser := _parser self |}
     | None => self
     end).
Proof.
  intros Hu Ht.
  unfold extract, try_except, M_bind, M_read, if_task, context_setitem, M_ret.
  rewrite Hu, Ht. by destruct (task self).
Qed.

(** When the [try] block is left with [e], nothing has been assigned yet:
    the handler runs on the object as it was, and [extract] raises the
    wrapping exception after the handler's updates. *)
Lemma extract_raises self e :
  extraction_raises self e →
  ∃ x self', extract self = (Raise x, self') ∧ wraps x e ∧ failure_recorded e self self'.
Proof.
  intros Hr.
  assert (extract self
          = (if_task (context_setitem "status" (PyStr "extracting_failed") ;;
                      context_setitem "error" (PyExc e) ;;
                      let* scihub_url := context_get "referer" PyNone in
                      service_increment_failed_times scihub_url) ;;
             M_raise (Exn ExtractException
                        ("Error occurs when extracting: " +:+ str e) (Some e)))%M self)
    as ->.
  { unfold extract, try_except at 1. unfold M_bind at 1 2 3, M_read.
    destruct Hr as [->|(url & -> & ->)]; done. }
  unfold failure_recorded, wraps, same_setup.
  unfold M_bind, if_task, context_setitem, context_get,
    service_increment_failed_times, M_raise.
  destruct (task self) as [t|] eqn:Ht; simpl.
  - eexists _, _. split; [done|]. split; [done|]. simpl.
    split; [done|]. split; [|done].
    unfold increment_failed_times, dict_get. simpl.
    by rewrite !lookup_insert_ne.
  - by eexists _, _.
Qed.

Lemma extraction_returns_or_raises self :
  (∃ url title, _extract_url self = Ok url ∧ _extract_title self = Ok title)
  ∨ ∃ e, extraction_raises self e.
Proof.
  unfold extraction_raises.
  destruct (_extract_url self) as [url|e] eqn:Hu; [|right; exists e; by left].
  destruct (_extract_title self) as [title|e] eqn:Ht.
  - left. by exists url, title.
  - right. exists e. right. by exists url.
Qed.

Lemma wraps_inj x e e' : wraps x e → wraps x e' → e = e'.
Proof. unfold wraps. intros -> [= _ ->]. done. Qed.

(** What [extract] raises, it raises for an exception of the [try]
    block. *)
Lemma extract_raise_inv self x self' :
  extract self = (Raise x, self') →
  ∃ e, extraction_raises self e ∧ wraps x e ∧ failure_recorded e self self'.
Proof.
  intros Hx.
  destruct (extraction_returns_or_raises self) as [(url & title & Hu & Ht)|[e He]].
  - rewrite (extract_returns _ _ _ Hu Ht) in Hx. done.
  - destruct (extract_raises _ _ He) as (x' & self'' & Hx' & Hw & Hf).
    rewrite Hx' in Hx. injection Hx as <- <-. by exists e.
Qed.

Lemma extract_raw_url_unfold self soup :
  BeautifulSoup (HtmlContent.content (content self)) (_parser self) = Ok soup →
  _extract_raw_url self
  = match select_one soup (pdf_tag_selector self) with
    | None =>
        Raise (Exn PdfTagNotFoundException
                 ("No pdf tag was found in the given content with the selector: "
                  +:+ pdf_tag_selector self) None)
    | Some pdf_tag =>
        match attrs pdf_tag !! pdf_tag_attr self with
        | None =>
            Raise (Exn PdfUrlNotFoundException
                     ("No pdf url was found in the pdf tag: " +:+ get_text pdf_tag
                      +:+ " with the attr " +:+ pdf_tag_attr self) None)
        | Some raw_url => Ok raw_url
        end
    end.
Proof. intros Hsoup. unfold _extract_raw_url. by rewrite Hsoup. Qed.

(** Once the raw value is read, URL resolution can only fail in the
    concatenation with a referer that is not a string. *)
Lemma extract_url_error_after_raw self raw e :
  _extract_raw_url self = Ok raw →
  _extract_url self = Raise e →
  exn_class e = TypeError.
Proof.
  intros Hraw. rewrite (extract_url_unfold _ _ Hraw).
  destruct (existsb _ _); [done|].
  destruct (split_fragment raw) as (url & segs & -> & _).
  rewrite getitem_0, bind_Ok.
  repeat case_match; try done.
  unfold add_str. case_match; try done; by intros [= <-].
Qed.

(** On a parsed page title extraction always returns. *)
Lemma extract_title_returns self soup :
  BeautifulSoup (HtmlContent.content (content self)) (_parser self) = Ok soup →
  ∃ title, _extract_title self = Ok title.
Proof.
  intros Hsoup. destruct (title_from_title_tag_yields soup) as (t1 & Ht1 & _).
  rewrite (extract_title_unfold _ _ _ Hsoup Ht1). by eexists.
Qed.

(** The exceptions of the [try] block on a parsed page, by origin. *)
Lemma extraction_raises_cases self soup e :
  BeautifulSoup (HtmlContent.content (content self)) (_parser self) = Ok soup →
  extraction_raises self e →
  (select_one soup (pdf_tag_selector self) = None
   ∧ exn_class e = PdfTagNotFoundException)
  ∨ (∃ t, select_one soup (pdf_tag_selector self) = Some t
          ∧ attrs t !! pdf_tag_attr self = None
          ∧ exn_class e = PdfUrlNotFoundException)
  ∨ (∃ t raw, select_one soup (pdf_tag_selector self) = Some t
              ∧ attrs t !! pdf_tag_attr self = Some raw
              ∧ exn_class e = TypeError).
Proof.
  intros Hsoup [Hu|(url & _ & Ht)].
  - pose proof (extract_raw_url_unfold _ _ Hsoup) as Hraw.
    destruct (select_one soup (pdf_tag_selector self)) as [t|] eqn:Hsel.
    + destruct (attrs t !! pdf_tag_attr self) as [raw|] eqn:Hattr.
      * right; right. exists t, raw. do 2 (split; [done|]).
        by apply (extract_url_error_after_raw self raw).
      * right; left. exists t. do 2 (split; [done|]).
        unfold _extract_url in Hu. rewrite Hraw, bind_Raise in Hu.
        by injection Hu as <-.
    + left. split; [done|].
      unfold _extract_url in Hu. rewrite Hraw, bind_Raise in Hu.
      by injection Hu as <-.
  - destruct (extract_title_returns _ _ Hsoup) as [title Htitle]. congruence.
Qed.

Lemma select_one_first_match soup selector t :
  select_one soup selector = Some t ↔ first_match soup selector t.
Proof. apply find_Some_iff. Qed.

(** C2.  With a task, whenever URL or title extraction raises [e], the
    call of [extract] ends by raising the wrapping [ExtractException], and
    the object it leaves behind shows what was done before: the context
    status is [extracting_failed], the context error is [e], and the
    health service has received [increment_failed_times] with the referer
    of the task context as one more call.  The recording is part of the
    raising outcome; it does not depend on anybody catching the
    exception. *)
Theorem extract_failure_marks_task_and_mirror self t e :
  task self = Some t →
  extraction_raises self e →
  ∃ x self' t',
    extract self = (Raise x, self') ∧ wraps x e
    ∧ task self' = Some t'
    ∧ context t' !! "status" = Some (PyStr "extracting_failed")
    ∧ context t' !! "error" = Some (PyExc e)
    ∧ (∀ k, k ≠ "status" → k ≠ "error" → context t' !! k = context t !! k)
    ∧ calls (service self')
      = (calls (service self)
         ++ [increment_failed_times_call (dict_get (context t) "referer" PyNone)])%list.
Proof.
  intros Ht He.
  destruct (extract_raises _ _ He) as (x & self' & Hx & Hw & Hf).
  unfold failure_recorded in Hf. rewrite Ht in Hf.
  destruct Hf as (Ht' & Hcalls & _).
  eexists x, self', _. do 3 (split; [done|]). simpl.
  split; [|split; [|split]]; try done.
  - by rewrite lookup_insert_ne, lookup_insert_eq.
  - by rewrite lookup_insert_eq.
  - intros k H1 H2. by rewrite !lookup_insert_ne.
Qed.

(** C3.  On a parsed page, [extract] fails with an [ExtractException]
    that wraps a [PdfTagNotFoundException] exactly when no tag of the page
    matches the configured selector, and with one that wraps a
    [PdfUrlNotFoundException] exactly when the first tag that matches has
    no attribute of the configured name. *)
Theorem extract_structural_failures self soup :
  BeautifulSoup (HtmlContent.content (content self)) (_parser self) = Ok soup →
  ((∃ x e self', extract self = (Raise x, self') ∧ wraps x e
                 ∧ exn_class e = PdfTagNotFoundException)
   ↔ ∀ t, t ∈ soup_tags soup → css_match (pdf_tag_selector self) t = false)
  ∧ ((∃ x e self', extract self = (Raise x, self') ∧ wraps x e
                   ∧ exn_class e = PdfUrlNotFoundException)
     ↔ ∃ t, first_match soup (pdf_tag_selector self) t
            ∧ attrs t !! pdf_tag_attr self = None).
Proof.
  intros Hsoup.
  pose proof (extract_raw_url_unfold _ _ Hsoup) as Hraw.
  split; split.
  - intros (x & e & self' & Hx & Hw & Hcls).
    destruct (extract_raise_inv _ _ _ Hx) as (e' & He' & Hw' & _).
    rewrite <- (wraps_inj _ _ _ Hw Hw') in He'.
    apply find_None_iff.
    destruct (extraction_raises_cases _ _ _ Hsoup He')
      as [[Hsel _]|[(t & _ & _ & Hc)|(t & raw & _ & _ & Hc)]]; [done|congruence..].
  - intros Hnone. apply find_None_iff in Hnone.
    fold (select_one soup (pdf_tag_selector self)) in Hnone.
    rewrite Hnone in Hraw.
    edestruct (extract_raises self) as (x & self' & Hx & Hw & _).
    { left. unfold _extract_url. by rewrite Hraw, bind_Raise. }
    by eexists x, _, self'.
  - intros (x & e & self' & Hx & Hw & Hcls).
    destruct (extract_raise_inv _ _ _ Hx) as (e' & He' & Hw' & _).
    rewrite <- (wraps_inj _ _ _ Hw Hw') in He'.
    destruct (extraction_raises_cases _ _ _ Hsoup He')
      as [[_ Hc]|[(t & Hsel & Hattr & _)|(t & raw & _ & _ & Hc)]]; [congruence| |congruence].
    exists t. split; [|done]. by apply select_one_first_match.
  - intros (t & Hsel%select_one_first_match & Hattr).
    rewrite Hsel, Hattr in Hraw.
    edestruct (extract_raises self) as (x & self' & Hx & Hw & _).
    { left. unfold _extract_url. by rewrite Hraw, bind_Raise. }
    by eexists x, _, self'.
Qed.

(** C8.  When [extract] returns [info], the health service has received
    no call, and the only assignment was [context['info'] = info] on the
    task, if there is one: every other key of the context holds what it
    held, and the other fields of the extractor are as before. *)
Theorem extract_success_sets_info_only self info self' :
  extract self = (Ok info, self') →
  service self' = service self
  ∧ same_setup self self'
  ∧ match task self with
    | Some t =>
        ∃ t', task self' = Some t'
              ∧ context t' = <["info" := PyInfo info]> (context t)
              ∧ ∀ k, k ≠ "info" → context t' !! k = context t !! k
    | None => task self' = None
    end.
Proof.
  intros Hx.
  destruct (extraction_returns_or_raises self) as [(url & title & Hu & Ht)|[e He]].
  - rewrite (extract_returns _ _ _ Hu Ht) in Hx. injection Hx as <- <-.
    unfold same_setup. destruct (task self) as [t|] eqn:Htask; simpl.
    + do 2 (split; [done|]). eexists. split; [done|]. simpl. split; [done|].
      intros k Hk. by rewrite lookup_insert_ne.
    + by rewrite Htask.
  - destruct (extract_raises _ _ He) as (x & self'' & Hx' & _). congruence.
Qed.

(** C10.  Whatever exception URL or title extraction raises, of whatever
    class, [extract] raises an [ExtractException] that wraps it, after the
    same failure handling: with a task, status [extracting_failed], the
    error in the context and [increment_failed_times] on the referer;
    without a task, nothing.  And [extract] raises nothing else: an
    exception that leaves it is an [ExtractException] wrapping an
    exception of the [try] block. *)
Theorem extract_wraps_every_exception self :
  (∀ e, extraction_raises self e →
        ∃ x self', extract self = (Raise x, self') ∧ wraps x e
                   ∧ failure_recorded e self self')
  ∧ (∀ x self', extract self = (Raise x, self') →
                exn_class x = ExtractException
                ∧ ∃ e, extraction_raises self e ∧ wraps x e
                       ∧ failure_recorded e self self').
Proof.
  split.
  - apply extract_raises.
  - intros x self' Hx.
    destruct (extract_raise_inv _ _ _ Hx) as (e & He & Hw & Hf).
    split; [by rewrite Hw | by exists e].
Qed.

End extract_facts.

(** ** get_default_referer *)

(** C9.  With the chooser the configuration names (the availability-first
    one when the registry has no chooser of that name): if it reports no
    candidate, the default referer is the hardcoded [https://sci-hub.se];
    if it reports one at least, the default referer is the URL of the
    mirror its [next()] returns. *)
Theorem default_referer_fallback `{Env} (chooser_type : string) (chooser : ScihubUrlChooser) :
  configs_get "scihub.task" "scihub_url_chooser_type" = Ok chooser_type →
  chooser = default AvailabilityFirstScihubUrlChooser (scihub_url_choosers !! chooser_type) →
  (__len__ chooser = 0 → get_default_referer = Ok "https://sci-hub.se")
  ∧ (__len__ chooser ≠ 0 →
     ∀ m, next chooser = Ok m → get_default_referer = Ok (ScihubUrl.url m)).
Proof.
  intros Hty ->. unfold get_default_referer. rewrite Hty, bind_Ok. split.
  - intros ->. done.
  - intros Hlen m Hm. apply Nat.eqb_neq in Hlen. by rewrite Hlen, Hm.
Qed.

Lemma default_referer_fallback_witness :
  @get_default_referer env_empty = Ok "https://sci-hub.se"
  ∧ @get_default_referer env_m1 = Ok "https://m1.test".
Proof.
  split.
  - apply (@default_referer_fallback env_empty "availability_first" (list_chooser []));
      reflexivity.
  - apply (proj2 (@default_referer_fallback env_m1 "availability_first"
                    (list_chooser [m1]) eq_refl eq_refl)) with (m := m1);
      [discriminate | reflexivity].
Defined.

(** ** The theorems at work on the example pages *)


Lemma extract_failure_marks_task_and_mirror_witness :
  ∃ x self' t',
    @extract env_m1 (demo_extractor "<p>no link</p>" (Some m1_ctx)) = (Raise x, self')
    ∧ task self' = Some t'
    ∧ context t' !! "status" = Some (PyStr "extracting_failed")
    ∧ calls (service self') = [increment_failed_times_call (PyStr "https://m1.test")].
Proof.
  destruct (@extract_failure_marks_task_and_mirror env_m1
              (demo_extractor "<p>no link</p>" (Some m1_ctx))
              {| context := <["status" := PyStr "extracting"]> m1_ctx |}
              (Exn PdfTagNotFoundException
                 "No pdf tag was found in the given content with the selector: #pdf" None)
              eq_refl (or_introl eq_refl))
    as (x & self' & t' & Hx & _ & Ht' & Hstatus & _ & _ & Hcalls).
  exists x, self', t'. repeat split; [exact Hx | exact Ht' | exact Hstatus | exact Hcalls].
Defined.

Lemma extract_structural_failures_witness :
  (∃ x e self',
     @extract env_m1 (demo_extractor "<a id='pdf'>here</a>" (Some m1_ctx)) = (Raise x, self')
     ∧ wraps x e ∧ exn_class e = PdfUrlNotFoundException)
  ↔ ∃ t, @first_match env_m1 [Tag "a" {["id" := "pdf"]} [NavigableString "here"]] "#pdf" t
         ∧ attrs t !! "href" = None.
Proof.
  exact (proj2 (@extract_structural_failures env_m1
                  (demo_extractor "<a id='pdf'>here</a>" (Some m1_ctx))
                  [Tag "a" {["id" := "pdf"]} [NavigableString "here"]] eq_refl)).
Defined.

Lemma extract_success_sets_info_only_witness :
  service (snd (@extract env_m1
                  (demo_extractor
                     "<title>Paper Title | Journal</title><a id='pdf' href='/downloads/a.pdf'>"
                     (Some m1_ctx))))
  = {| calls := [] |}.
Proof.
  refine (proj1 (@extract_success_sets_info_only env_m1
                   (demo_extractor
                      "<title>Paper Title | Journal</title><a id='pdf' href='/downloads/a.pdf'>"
                      (Some m1_ctx))
                   {| PdfUrlTitleInformation.url := "https://m1.test/downloads/a.pdf";
                      PdfUrlTitleInformation.title := "Journal" |}
                   _ _)).
  reflexivity.
Defined.

(** A parser error and a referer that is not a string are wrapped like
    the two structural failures. *)
Lemma extract_wraps_every_exception_witness :
  (∃ x self',
     @extract env_m1 (demo_extractor "<html" (Some m1_ctx)) = (Raise x, self')
     ∧ wraps x (Exn (ExceptionSubclass "ParserRejectedMarkup") "unknown page" None))
  ∧ (∃ x self',
       @extract env_m1
          (demo_extractor "<a id='pdf' href='/x'>" (Some {[ "referer" := PyNone ]}))
       = (Raise x, self')
       ∧ wraps x (Exn TypeError
                    "unsupported operand type(s) for +: 'NoneType' and 'str'" None)).
Proof.
  split.
  - destruct (proj1 (@extract_wraps_every_exception env_m1
                       (demo_extractor "<html" (Some m1_ctx)))
                (Exn (ExceptionSubclass "ParserRejectedMarkup") "unknown page" None)
                ltac:(left; reflexivity))
      as (x & self' & Hx & Hw & _).
    exists x, self'. split; [exact Hx | exact Hw].
  - destruct (proj1 (@extract_wraps_every_exception env_m1
                       (demo_extractor "<a id='pdf' href='/x'>"
                                       (Some {[ "referer" := PyNone ]})))
                (Exn TypeError
                   "unsupported operand type(s) for +: 'NoneType' and 'str'" None)
                ltac:(left; reflexivity))
      as (x & self' & Hx & Hw & _).
    exists x, self'. split; [exact Hx | exact Hw].
Defined.

Example init_builds_demo_extractor :
  @__init__ env_m1 {| HtmlContent.content := "<a id='pdf' href='/x'>" |}
     (Some {| context := m1_ctx |})
  = Ok (demo_extractor "<a id='pdf' href='/x'>" (Some m1_ctx)).
Proof. reflexivity. Qed.

(** In [env_m1] the class attribute is what [get_default_referer]
    returns there. *)
Example default_referer_class_attribute :
  @get_default_referer env_m1 = Ok (@DEFAULT_REFERER env_m1)
  ∧ @get_default_referer env_empty = Ok (@DEFAULT_REFERER env_empty).
Proof. split; reflexivity. Qed.

Example extract_end_to_end :
  fst (@extract env_m1
         (demo_extractor
            "<title>Paper Title | Journal</title><a id='pdf' href='/downloads/a.pdf'>"
            (Some m1_ctx)))
  = Ok {| PdfUrlTitleInformation.url := "https://m1.test/downloads/a.pdf";
          PdfUrlTitleInformation.title := "Journal" |}.
Proof. reflexivity. Qed.

(** * The command line tool *)

(** ** list_domains *)

Section list_domains_facts.
Import cli.
Implicit Types (u v : ScihubUrl.t) (urls : list ScihubUrl.t).

Lemma insert_by_success_perm u urls : insert_by_success u urls ≡ₚ u :: urls.
Proof.
  induction urls as [|v urls IH]; simpl; [done|].
  case_match; [done|]. rewrite IH. apply Permutation_swap.
Qed.

Lemma sort_by_success_perm urls : sort_by_success urls ≡ₚ urls.
Proof.
  induction urls as [|u urls IH]; simpl; [done|].
  rewrite insert_by_success_perm. by f_equiv.
Qed.

Lemma insert_by_success_sorted u urls :
  StronglySorted no_more urls → StronglySorted no_more (insert_by_success u urls).
Proof.
  induction 1 as [|v urls Hs IH Hv]; simpl.
  - repeat constructor.
  - destruct (Nat.leb _ _) eqn:E.
    + apply Nat.leb_le in E. constructor; [by constructor|].
      constructor; [done|].
      eapply Forall_impl; [exact Hv|]. unfold no_more. simpl. lia.
    + apply Nat.leb_gt in E. constructor; [done|].
      rewrite insert_by_success_perm. constructor; [|done].
      unfold no_more. lia.
Qed.

Lemma sort_by_success_sorted urls : StronglySorted no_more (sort_by_success urls).
Proof.
  induction urls as [|u urls IH]; simpl; [constructor|].
  by apply insert_by_success_sorted.
Qed.

Lemma insert_by_success_filter (n : nat) u urls :
  filter (λ v, ScihubUrl.success_times v = n) (insert_by_success u urls)
  = filter (λ v, ScihubUrl.success_times v = n) (u :: urls).
Proof.
  induction urls as [|v urls IH]; simpl; [done|].
  destruct (Nat.leb _ _) eqn:E; [done|]. apply Nat.leb_gt in E.
  rewrite (filter_cons _ v), IH, !filter_cons.
  repeat case_decide; try done; lia.
Qed.

Lemma StronglySorted_lookup {A} (R : relation A) (l : list A) (i j : nat) (x y : A) :
  StronglySorted R l → (i < j)%nat → l !! i = Some x → l !! j = Some y → R x y.
Proof.
  intros Hs. revert i j. induction Hs as [|a l Hs IH Ha]; intros i j Hij Hi Hj.
  - done.
  - destruct i as [|i], j as [|j]; try lia; simpl in *.
    + injection Hi as ->. rewrite Forall_forall in Ha.
      apply Ha. by eapply list_elem_of_lookup_2.
    + apply (IH i j); [lia|done..].
Qed.

(** X1.  The rows [list_domains] hands to the table are in descending
    order of success times: a row never has more successes than a row
    above it. *)
Theorem list_domains_descending `{World W} (w : W) (i j : nat)
    (r1 r2 : string * nat * nat) :
  (i < j)%nat →
  list_domains w !! i = Some r1 →
  list_domains w !! j = Some r2 →
  (r2.1.2 ≤ r1.1.2)%nat.
Proof.
  unfold list_domains. rewrite !list_lookup_fmap.
  intros Hij Hi Hj.
  destruct (sort_by_success (get_all_urls w) !! i) as [u|] eqn:Hu; [|done].
  destruct (sort_by_success (get_all_urls w) !! j) as [v|] eqn:Hv; [|done].
  injection Hi as <-. injection Hj as <-. simpl.
  exact (StronglySorted_lookup _ _ _ _ _ _ (sort_by_success_sorted _) Hij Hu Hv).
Qed.

(** X2.  The rows are the records of the mirror database, each one once:
    sorting loses and repeats nothing. *)
Theorem list_domains_all_records `{World W} (w : W) :
  list_domains w
  ≡ₚ (λ url, (ScihubUrl.url url, ScihubUrl.success_times url, ScihubUrl.failed_times url))
       <$> get_all_urls w.
Proof. unfold list_domains. by rewrite sort_by_success_perm. Qed.

(** X3.  The sort is stable: the rows with a given number of successes
    stand in the order the database returned them. *)
Theorem list_domains_stable `{World W} (w : W) (n : nat) :
  filter (λ row, row.1.2 = n) (list_domains w)
  = (λ url, (ScihubUrl.url url, ScihubUrl.success_times url, ScihubUrl.failed_times url))
      <$> filter (λ url, ScihubUrl.success_times url = n) (get_all_urls w).
Proof.
  unfold list_domains.
  assert (∀ urls,
            filter (λ v, ScihubUrl.success_times v = n) (sort_by_success urls)
            = filter (λ v, ScihubUrl.success_times v = n) urls) as Hsort.
  { induction urls as [|u urls IH]; simpl; [done|].
    by rewrite insert_by_success_filter, !filter_cons, IH. }
  rewrite <- Hsort.
  generalize (sort_by_success (get_all_urls w)). intros urls.
  induction urls as [|u urls IH]; [done|].
  rewrite fmap_cons, !filter_cons. simpl.
  case_decide; [rewrite fmap_cons|]; by rewrite IH.
Qed.

End list_domains_facts.

Lemma list_domains_descending_witness :
  (("https://a.test", 1, 4).1.2 ≤ ("https://b.test", 3, 0).1.2)%nat.
Proof.
  apply (@list_domains_descending _ cli.demo_World cli.demo_start 0 1);
    [lia | reflexivity | reflexivity].
Defined.

(** ** The name of the failed-sources file *)

Section splitext_facts.
Import PyStr cli.

Lemma length_app_str (x y : string) :
  String.length (x +:+ y) = (String.length x + String.length y)%nat.
Proof. induction x as [|c x IH]; [done|]. rewrite app_cons. simpl. by rewrite IH. Qed.

Lemma take_app_length (x y : string) : take (String.length x) (x +:+ y) = x.
Proof. induction x as [|c x IH]; [by destruct y|]. rewrite app_cons. simpl. by rewrite IH. Qed.

Lemma drop_app_length (x y : string) : drop (String.length x) (x +:+ y) = y.
Proof. induction x as [|c x IH]; [by destruct y|]. by rewrite app_cons. Qed.

Lemma rfind_lower (c : ascii) (s : string) : (-1 ≤ rfind c s)%Z.
Proof.
  induction s as [|a s IH]; simpl; [lia|].
  destruct (Z.leb_spec 0 (rfind c s)); [lia|]. case_decide; lia.
Qed.

Lemma rfind_absent (c : ascii) (s : string) :
  (rfind c s < 0)%Z → has_char c s = false.
Proof.
  induction s as [|a s IH]; simpl; [done|].
  destruct (Z.leb_spec 0 (rfind c s)); [lia|].
  destruct (decide (a = c)); [lia|]. intros _. by apply IH.
Qed.

Lemma rfind_present (c : ascii) (s : string) :
  has_char c s = true → (0 ≤ rfind c s)%Z.
Proof.
  intros Hs. destruct (Z.leb_spec 0 (rfind c s)); [done|].
  rewrite rfind_absent in Hs; [done|lia].
Qed.

(** The index [rfind] returns is the one of the last occurrence. *)
Lemma rfind_last (c : ascii) (s : string) :
  (0 ≤ rfind c s)%Z →
  ∃ pre rest, s = pre +:+ String c rest
              ∧ String.length pre = Z.to_nat (rfind c s)
              ∧ has_char c rest = false.
Proof.
  induction s as [|a s IH]; simpl; [lia|].
  destruct (Z.leb_spec 0 (rfind c s)) as [Hr|Hr].
  - intros _. destruct (IH Hr) as (pre & rest & -> & Hlen & Hrest).
    exists (String a pre), rest. repeat split; [|done]. simpl. lia.
  - destruct (decide (a = c)) as [->|]; [|lia]. intros _.
    exists EmptyString, s. repeat split. apply rfind_absent. lia.
Qed.

Lemma rfind_app_r (c : ascii) (pre x : string) :
  (0 ≤ rfind c x)%Z →
  rfind c (pre +:+ x) = (Z.of_nat (String.length pre) + rfind c x)%Z.
Proof.
  intros Hx. induction pre as [|a pre IH]; [rewrite app_empty_l; simpl; lia|].
  rewrite app_cons. simpl rfind. rewrite IH.
  destruct (Z.leb_spec 0 (Z.of_nat (String.length pre) + rfind c x));
    simpl String.length; lia.
Qed.

(** [splitext] cuts the path in two; the second part is empty or a dot
    followed by neither dot nor slash. *)
Lemma splitext_spec (p : string) :
  ∃ base ext, splitext p = (base, ext) ∧ p = base +:+ ext
    ∧ (ext = EmptyString
       ∨ ∃ e, ext = String "." e ∧ has_char "." e = false ∧ has_char "/" e = false).
Proof.
  unfold splitext.
  destruct ((rfind "/" p <? rfind "." p)%Z && _) eqn:E.
  - apply andb_prop in E as [Hlt%Z.ltb_lt _].
    pose proof (rfind_lower "/" p) as Hsep.
    destruct (rfind_last "." p) as (pre & rest & Hp & Hlen & Hrest); [lia|].
    assert (drop (Z.to_nat (rfind "." p)) p = String "." rest) as Hdrop.
    { rewrite <- Hlen, Hp. apply drop_app_length. }
    eexists _, _. split; [done|]. split; [apply take_drop|].
    right. exists rest. do 2 (split; [done|]).
    destruct (has_char "/" rest) eqn:Hslash; [|done].
    apply rfind_present in Hslash.
    assert (0 ≤ rfind "/" (String "." rest))%Z as Hx.
    { simpl. destruct (Z.leb_spec 0 (rfind "/" rest)); lia. }
    pose proof (rfind_app_r "/" pre _ Hx) as Happ. rewrite <- Hp in Happ.
    simpl in Happ. destruct (Z.leb_spec 0 (rfind "/" rest)); lia.
  - exists p, EmptyString. split; [done|]. split; [|by left].
    clear. induction p as [|c p IH]; [done|]. by rewrite app_cons, <- IH.
Qed.

Lemma failed_file_name_differs (input_file : string) :
  failed_file_name input_file ≠ input_file.
Proof.
  destruct (splitext_spec input_file) as (base & ext & Hsplit & Hp & _).
  unfold failed_file_name. rewrite Hsplit.
  intros Heq. apply (f_equal String.length) in Heq.
  rewrite Hp, !length_app_str in Heq. simpl in Heq. lia.
Qed.


End splitext_facts.

(** ** download *)

Section download_facts.
Import PyStr cli.
Context `{Env} `{World W}.
Implicit Types (w : W) (st : counters) (tasks : list task_kwargs).

(** A string that neither starts nor ends with whitespace is its own
    strip. *)
Lemma strip_fixed (s : string) :
  (∀ c, String.get 0 s = Some c → isspace c = false) →
  (∀ c, last_char s = Some c → isspace c = false) →
  strip s = s.
Proof.
  intros Hfirst Hlast. unfold strip.
  assert (lstrip s = s) as ->.
  { destruct s as [|c s]; [done|]. simpl. by rewrite (Hfirst c). }
  clear Hfirst. induction s as [|c s IH]; [done|]. simpl.
  destruct s as [|d s].
  - simpl. by rewrite (Hlast c).
  - rewrite IH; [done|]. intros c'. apply Hlast.
Qed.

Lemma strip_idemp (s : string) : strip (strip s) = strip s.
Proof.
  destruct (strip_spec s) as (_ & _ & _ & _ & _ & Hfirst & Hlast).
  by apply strip_fixed.
Qed.




Lemma last_char_app_one (s : string) (c : ascii) :
  last_char (s +:+ String c EmptyString) = Some c.
Proof.
  induction s as [|a s IH]; [done|]. rewrite app_cons. simpl.
  destruct (s +:+ String c EmptyString) eqn:E; [|done].
  by destruct s.
Qed.

(** X6.  With several sources and a non-empty [out], the output path
    passed on ends with a slash: [out] itself when it already does, else
    [out] with a slash added; doing it again changes nothing.  With one
    source at most, [out] is passed on as it is. *)
Theorem directory_out_slash (sources : nat) (o : string) :
  o ≠ EmptyString →
  ∃ o',
    (1 < sources → directory_out sources (Some o) = Ok (Some o'))%nat
    ∧ last_char o' = Some "/"%char
    ∧ ((o' = o ∧ last_char o = Some "/"%char)
       ∨ (o' = o +:+ "/" ∧ last_char o ≠ Some "/"%char))
    ∧ directory_out sources (Some o') = Ok (Some o')
    ∧ (sources ≤ 1 → ∀ out, directory_out sources out = Ok out)%nat.
Proof.
  intros Ho.
  destruct (last_char o) as [c|] eqn:Hc.
  2:{ destruct o as [|a o]; [done|]. exfalso. clear Ho.
      revert a Hc. induction o as [|b o IH]; intros a; simpl; [done|]. apply IH. }
  assert (∀ n out, (n ≤ 1)%nat → directory_out n out = Ok out) as Hle.
  { intros n out Hn. unfold directory_out.
    by rewrite (proj2 (Nat.ltb_ge 1 n) Hn). }
  assert (∀ n s, last_char s = Some "/"%char →
                 directory_out n (Some s) = Ok (Some s)) as Hslash.
  { intros n s Hs. unfold directory_out, last_item. rewrite Hs.
    by destruct (Nat.ltb 1 n). }
  destruct (decide (c = "/"%char)) as [->|Hne].
  - exists o. split; [auto|]. split; [done|]. split; [by left|]. auto.
  - exists (o +:+ "/"). pose proof (last_char_app_one o "/") as Hl.
    split; [|split; [done|split; [|auto]]].
    + intros Hs%Nat.ltb_lt. unfold directory_out, last_item.
      rewrite Hs, Hc, bind_Ok. by rewrite bool_decide_true.
    + right. split; [done|]. congruence.
Qed.

(** A string that holds the separator splits into two segments at
    least; the first two are the text before the first separator and the
    text between the first and the second. *)
Lemma split_two (c : ascii) (s : string) :
  has_char c s = true →
  ∃ a b t, split c s = a :: b :: t
           ∧ has_char c a = false ∧ has_char c b = false
           ∧ (s = a +:+ String c b ∨ ∃ rest, s = a +:+ String c (b +:+ String c rest)).
Proof.
  intros Hs. destruct (split_step c s) as (a & t & Hsp & Ha & Ht).
  destruct t as [|b t]; [congruence|].
  destruct Ht as (s' & -> & Hs').
  destruct (split_step c s') as (b' & t' & Hsp' & Hb & Ht').
  rewrite Hs' in Hsp'. injection Hsp' as <- <-.
  exists a, b, t. do 3 (split; [done|]).
  destruct t; [left; by rewrite Ht'|].
  right. destruct Ht' as (rest & -> & _). by exists rest.
Qed.

(** X7.  The proxy of the command line, [SCHEME=ADDRESS], is added to the
    proxies of the configuration and replaces the one configured for that
    scheme.  The scheme is the text before the first equals sign and the
    address the text up to the next equals sign, if there is one.  A proxy
    option without an equals sign is ignored.  From the configuration only
    the keys [http] and [https] are taken. *)
Theorem load_proxies_override (section : gmap string string) (proxy : string) :
  configs !! "proxy" = Some section →
  ∃ configured,
    load_proxies None = Ok configured
    ∧ (∀ k, configured !! k
            = if bool_decide (k = "http" ∨ k = "https") then section !! k else None)
    ∧ (has_char "=" proxy = false → load_proxies (Some proxy) = Ok configured)
    ∧ (has_char "=" proxy = true →
       ∃ scheme address,
         has_char "=" scheme = false ∧ has_char "=" address = false
         ∧ (proxy = scheme +:+ String "=" address
            ∨ ∃ rest, proxy = scheme +:+ String "=" (address +:+ String "=" rest))
         ∧ load_proxies (Some proxy) = Ok (<[scheme := address]> configured)).
Proof.
  intros Hsec. unfold load_proxies. rewrite Hsec.
  eexists. split; [done|]. split; [|split].
  - intros k.
    destruct (section !! "http") as [v1|] eqn:E1,
             (section !! "https") as [v2|] eqn:E2;
      case_bool_decide as Hk;
      try (destruct Hk as [->| ->]; rewrite ?E1, ?E2);
      try (apply not_or_and in Hk as [??]);
      by simplify_map_eq.
  - intros ->. done.
  - intros Hp. rewrite Hp.
    destruct (split_two "=" proxy Hp) as (scheme & address & t & -> & Hs & Ha & Hform).
    exists scheme, address. by destruct t.
Qed.

(** X8.  The tasks are built for the DOIs first (those of the command
    line, then those of the file), then the PMIDs, then the titles, one
    task each, and all of them carry the same mirror URL, the same output
    path and the same proxies. *)
Theorem prepare_tasks (doi : list string) (pmid : list Z) (title : list string)
    (out scihub_url proxy input_file : option string) w tasks :
  prepare doi pmid title out scihub_url proxy input_file w = Ok tasks →
  source_keyword <$> tasks
  = ((KwStr <$> load_dois w doi input_file) ++ (KwInt <$> pmid) ++ (KwStr <$> title))%list
  ∧ source_type <$> tasks
    = (replicate (length (load_dois w doi input_file)) "doi"
       ++ replicate (length pmid) "pmid" ++ replicate (length title) "title")%list
  ∧ ∃ o px,
      directory_out (length (load_dois w doi input_file) + length pmid + length title) out
      = Ok o
      ∧ load_proxies proxy = Ok px
      ∧ Forall (λ t, cli.out t = o ∧ proxies t = px ∧ cli.scihub_url t = scihub_url) tasks.
Proof.
  unfold prepare.
  destruct (match scihub_url with Some _ => _ | None => _ end) as [[]|]; [|done].
  rewrite bind_Ok.
  destruct (directory_out _ out) as [o|]; [|done]. rewrite bind_Ok.
  destruct (load_proxies proxy) as [px|]; [|done]. rewrite bind_Ok.
  intros [= <-]. unfold build_tasks.
  generalize (load_dois w doi input_file). intros dois.
  rewrite !fmap_app, <- !list_fmap_compose. split; [done|]. split.
  - assert (∀ {A} (f : A → string) (c : string) (l : list A),
              (∀ x, f x = c) → f <$> l = replicate (length l) c) as Hconst.
    { intros A f c l Hf. induction l as [|x l IH]; [done|].
      by rewrite fmap_cons, Hf, IH. }
    rewrite (Hconst _ _ "doi" dois), (Hconst _ _ "pmid" pmid),
      (Hconst _ _ "title" title); done.
  - exists o, px. do 2 (split; [done|]).
    rewrite !Forall_app, !Forall_fmap. repeat split; by apply Forall_true.
Qed.

Lemma account_returns r (ctx : gmap string pyval) kw successful failed successful' failed' :
  account r ctx kw successful failed = Ok (successful', failed') →
  (successful' = S successful ∧ failed' = failed)
  ∨ (successful' = successful ∧ failed' = (failed ++ [kw])%list).
Proof.
  unfold account. repeat case_match; intros [= <- <-]; auto.
Qed.

Lemma account_raises r (ctx : gmap string pyval) kw successful failed e :
  account r ctx kw successful failed = Raise e →
  (∃ e', r = Raise e')
  ∧ ((ctx !! "status" = None ∧ e = Exn KeyError "'status'" None)
     ∨ (ctx !! "error" = None ∧ e = Exn KeyError "'error'" None)).
Proof.
  unfold account. repeat case_match; intros [= <-]; eauto.
Qed.

(** What a completed run of the loop has done to the counters. *)
Lemma run_tasks_returns (n : nat) tasks st w st' w' :
  run_tasks n tasks st w = (Ok st', w') →
  total_attempted st' = (total_attempted st + length tasks)%nat
  ∧ (∃ new_failed,
       failed_sources st' = (failed_sources st ++ new_failed)%list
       ∧ new_failed `sublist_of` (source_keyword <$> tasks)
       ∧ (successful_downloads st' + length new_failed
          = successful_downloads st + length tasks)%nat)
  ∧ (∃ new_lines,
       progress st' = (progress st ++ new_lines)%list
       ∧ new_lines.*2
         = List.filter (logs_progress n) (seq (S (total_attempted st)) (length tasks))
       ∧ (tasks ≠ [] → (total_attempted st + length tasks)%nat = n →
          last new_lines = Some (successful_downloads st', n))).
Proof.
  revert st w. induction tasks as [|kwargs tasks IH]; intros st w.
  - simpl. intros [= <- <-]. split; [lia|]. split.
    + exists []. rewrite app_nil_r. split; [done|]. split; [constructor|simpl; lia].
    + exists []. rewrite app_nil_r. split; [done|]. split; [done|]. by intros.
  - simpl. destruct (run_task w kwargs) as [[r ctx] w1].
    destruct (account _ _ _ _ _) as [[successful failed]|e] eqn:Hacc; [|done].
    intros Hrun. pose proof Hrun as Hrest.
    apply IH in Hrun as (Htotal & Hfailed & Hlog). simpl in *.
    split; [lia|]. split.
    + destruct Hfailed as (new_failed & Hf & Hsub & Hcount).
      apply account_returns in Hacc as [[-> ->]|[-> ->]].
      * exists new_failed. split; [done|]. split; [by constructor|lia].
      * exists (source_keyword kwargs :: new_failed).
        rewrite Hf, <- app_assoc. split; [done|].
        split; [by constructor|]. simpl. lia.
    + destruct Hlog as (new_lines & Hp & Hsnd & Hlast).
      assert (tasks = [] → st' = {| total_attempted := S (total_attempted st);
                                    successful_downloads := successful;
                                    failed_sources := failed;
                                    progress := progress st' |}
                           ∧ new_lines = []) as Hnil.
      { intros ->. simpl in *. injection Hrest as <- _. split; [done|].
        by destruct new_lines. }
      destruct (logs_progress n (S (total_attempted st))) eqn:Hlp.
      * exists ((successful, S (total_attempted st)) :: new_lines).
        rewrite Hp, <- app_assoc. split; [done|]. split; [simpl; by f_equal|].
        intros _ Hn. rewrite last_cons.
        destruct tasks as [|t tasks].
        -- destruct Hnil as [-> ->]; [done|]. simpl in *. f_equal. f_equal. lia.
        -- rewrite Hlast; [done|done|lia].
      * exists new_lines. split; [done|]. split; [done|].
        intros _ Hn. destruct tasks as [|t tasks].
        -- exfalso. simpl in Hn. unfold logs_progress in Hlp.
           rewrite (proj2 (Nat.eqb_eq _ n)) in Hlp by lia.
           by rewrite orb_true_r in Hlp.
        -- apply Hlast; [done|lia].
Qed.


(** What [download] returns, in terms of its two stages. *)
Lemma download_returns (doi : list string) (pmid : list Z) (title : list string)
    (out scihub_url proxy input_file : option string) w rep w' :
  download doi pmid title out scihub_url proxy input_file w = (Ok rep, w') →
  prepare doi pmid title out scihub_url proxy input_file w = Ok (tasks rep)
  ∧ ∃ w1, run_tasks (length (tasks rep)) (tasks rep) start w = (Ok (final rep), w1)
          ∧ match failed_file rep with
            | None =>
                w' = w1 ∧ (failed_sources (final rep) = [] ∨ truthy input_file = false)
            | Some f =>
                failed_sources (final rep) ≠ [] ∧ truthy input_file = true
                ∧ (∃ path, input_file = Some path ∧ f = failed_file_name path)
                ∧ w' = (write_text w1 f (failed_file_text (failed_sources (final rep)))).2
            end.
Proof.
  unfold download.
  destruct (prepare _ _ _ _ _ _ _ _) as [tasks|]; [|done].
  destruct (run_tasks _ _ _ _) as [[st|] w1] eqn:Hrun; [|done].
  destruct (failed_sources st) as [|k failed] eqn:Hfailed.
  { intros [= <- <-]. simpl. split; [done|]. exists w1. rewrite Hfailed. auto. }
  destruct input_file as [path|].
  2:{ intros [= <- <-]. simpl. split; [done|]. exists w1. auto. }
  destruct (truthy (Some path)) eqn:Htruthy.
  - destruct (write_text _ _ _) as [r w2] eqn:Hw.
    intros [= <- <-]. simpl. split; [done|]. exists w1. rewrite Hfailed.
    split; [done|]. split; [done|]. split; [done|].
    split; [by exists path|by rewrite Hw].
  - intros [= <- <-]. simpl. split; [done|]. exists w1. auto.
Qed.

(** X9.  When [download] has gone through its tasks, every task was
    attempted once, each attempt counted either as a successful download
    or as a failed source, and the failed sources are source keywords of
    the tasks, in task order. *)
Theorem download_counters (doi : list string) (pmid : list Z) (title : list string)
    (out scihub_url proxy input_file : option string) w rep w' :
  download doi pmid title out scihub_url proxy input_file w = (Ok rep, w') →
  total_attempted (final rep) = length (tasks rep)
  ∧ (successful_downloads (final rep) + length (failed_sources (final rep))
     = total_attempted (final rep))%nat
  ∧ failed_sources (final rep) `sublist_of` (source_keyword <$> tasks rep).
Proof.
  intros (_ & w1 & Hrun & _)%download_returns.
  apply run_tasks_returns in Hrun as (Htotal & (new_failed & Hf & Hsub & Hcount) & _).
  simpl in *. rewrite Hf, Htotal. repeat split; [lia|done].
Qed.

(** X10.  Progress is logged after every fifth attempt and after the last
    one, once each: the attempt numbers of the progress lines are those
    from 1 to the number of tasks that are a multiple of five or the last.
    The last progress line gives the final count of successful
    downloads. *)
Theorem download_progress_lines (doi : list string) (pmid : list Z) (title : list string)
    (out scihub_url proxy input_file : option string) w rep w' :
  download doi pmid title out scihub_url proxy input_file w = (Ok rep, w') →
  (progress (final rep)).*2
  = List.filter (λ k, bool_decide (k mod 5 = 0 ∨ k = length (tasks rep))%nat)
                (seq 1 (length (tasks rep)))
  ∧ (tasks rep ≠ [] →
     last (progress (final rep))
     = Some (successful_downloads (final rep), length (tasks rep))).
Proof.
  intros (_ & w1 & Hrun & _)%download_returns.
  apply run_tasks_returns in Hrun as (_ & _ & (new_lines & Hp & Hsnd & Hlast)).
  simpl in Hp, Hsnd, Hlast. subst new_lines. split; [|intros Hne; by apply Hlast].
  rewrite Hsnd. apply filter_ext_in. intros k [_ Hk]%in_seq.
  unfold logs_progress.
  destruct (Nat.eqb_spec (k mod 5) 0), (Nat.ltb_spec k (length (tasks rep))),
    (Nat.eqb_spec k (length (tasks rep))); cbn [andb orb];
    symmetry; (apply bool_decide_eq_true || apply bool_decide_eq_false); lia.
Qed.



Lemma run_tasks_completes (n : nat) tasks st w :
  (∀ w k e ctx w1, run_task w k = ((Raise e, ctx), w1) →
                   is_Some (ctx !! "status") ∧ is_Some (ctx !! "error")) →
  ∃ st' w', run_tasks n tasks st w = (Ok st', w').
Proof.
  intros Hrec. revert st w. induction tasks as [|kwargs tasks IH]; intros st w; simpl.
  - by eexists _, _.
  - destruct (run_task w kwargs) as [[r ctx] w1] eqn:Hrun.
    destruct (account _ _ _ _ _) as [[successful failed]|e] eqn:Hacc; [apply IH|].
    exfalso. apply account_raises in Hacc as [[e' ->] Hmiss].
    destruct (Hrec _ _ _ _ _ Hrun) as [[? Hs] [? Herr]].
    destruct Hmiss as [[? _]|[? _]]; congruence.
Qed.

(** X12.  A failing task does not stop the batch: provided a task whose
    [run] raises has its status and its error in the context, as the task
    steps record them, [download] attempts every task it has built and
    returns. *)
Theorem download_attempts_all (doi : list string) (pmid : list Z) (title : list string)
    (out scihub_url proxy input_file : option string) w tasks :
  (∀ w k e ctx w1, run_task w k = ((Raise e, ctx), w1) →
                   is_Some (ctx !! "status") ∧ is_Some (ctx !! "error")) →
  prepare doi pmid title out scihub_url proxy input_file w = Ok tasks →
  ∃ rep w',
    download doi pmid title out scihub_url proxy input_file w = (Ok rep, w')
    ∧ cli.tasks rep = tasks
    ∧ total_attempted (final rep) = length tasks.
Proof.
  intros Hrec Hprep.
  destruct (run_tasks_completes (length tasks) tasks start w Hrec) as (st & w1 & Hrun).
  assert (∃ rep w', download doi pmid title out scihub_url proxy input_file w
                    = (Ok rep, w') ∧ cli.tasks rep = tasks) as (rep & w' & Hd & Ht).
  { unfold download. rewrite Hprep, Hrun.
    repeat case_match; eexists _, _; split; done. }
  exists rep, w'. do 2 (split; [done|]).
  apply download_returns in Hd as (_ & w2 & Hrun' & _).
  apply run_tasks_returns in Hrun' as (-> & _). simpl. by rewrite Ht.
Qed.

(** X13.  [download] sets out to write the failed-sources file exactly
    when some source failed and an input file was named; the file is the
    one named after the input file and holds the failed sources, one per
    line.  Otherwise it writes nothing: the world is as the last task left
    it. *)
Theorem download_failed_file (doi : list string) (pmid : list Z) (title : list string)
    (out scihub_url proxy input_file : option string) w rep w' :
  download doi pmid title out scihub_url proxy input_file w = (Ok rep, w') →
  (is_Some (failed_file rep)
   ↔ failed_sources (final rep) ≠ [] ∧ truthy input_file = true)
  ∧ ∃ w1,
      run_tasks (length (tasks rep)) (tasks rep) start w = (Ok (final rep), w1)
      ∧ match failed_file rep with
        | None => w' = w1
        | Some f =>
            (∃ path, input_file = Some path ∧ f = failed_file_name path ∧ f ≠ path)
            ∧ w' = (write_text w1 f (failed_file_text (failed_sources (final rep)))).2
        end.
Proof.
  intros (_ & w1 & Hrun & Hfile)%download_returns.
  destruct (failed_file rep) as [f|].
  - destruct Hfile as (Hf & Ht & (path & -> & ->) & ->).
    split; [split; [done|by eexists]|].
    exists w1. split; [done|]. split; [|done].
    exists path. do 2 (split; [done|]).
    apply failed_file_name_differs.
  - destruct Hfile as (-> & Hnone).
    split; [|by exists w1].
    split; [by intros [??]|]. intros [Hf Ht]. destruct Hnone; congruence.
Qed.

(** X14.  With more than one source, an empty [out] string makes
    [download] raise an [IndexError] before any task has run. *)
Theorem download_empty_out (doi : list string) (pmid : list Z) (title : list string)
    (scihub_url proxy input_file : option string) w :
  (1 < length (load_dois w doi input_file) + length pmid + length title)%nat →
  (scihub_url = None →
   ∃ v, configs_get "scihub.task" "scihub_url_chooser_type" = Ok v) →
  download doi pmid title (Some EmptyString) scihub_url proxy input_file w
  = (Raise (Exn IndexError "string index out of range" None), w).
Proof.
  intros Hn Hcfg. unfold download, prepare.
  assert ((match scihub_url with
           | Some _ => Ok tt
           | None => configs_get "scihub.task" "scihub_url_chooser_type" ≫= λ _, Ok tt
           end) = Ok tt) as ->.
  { destruct scihub_url; [done|]. destruct Hcfg as [v ->]; done. }
  rewrite bind_Ok. unfold directory_out.
  by rewrite (proj2 (Nat.ltb_lt _ _) Hn).
Qed.

End download_facts.

Lemma directory_out_slash_witness :
  ∃ o',
    (1 < 3 → cli.directory_out 3 (Some "outdir") = Ok (Some o'))%nat
    ∧ PyStr.last_char o' = Some "/"%char
    ∧ ((o' = "outdir" ∧ PyStr.last_char "outdir" = Some "/"%char)
       ∨ (o' = "outdir" +:+ "/" ∧ PyStr.last_char "outdir" ≠ Some "/"%char))
    ∧ cli.directory_out 3 (Some o') = Ok (Some o')
    ∧ (3 ≤ 1 → ∀ out, cli.directory_out 3 out = Ok out)%nat.
Proof. apply (directory_out_slash 3 "outdir"). discriminate. Defined.

Lemma load_proxies_override_witness :
  ∃ configured,
    @cli.load_proxies cli.env_proxy None = Ok configured
    ∧ (∀ k, configured !! k
            = if bool_decide (k = "http" ∨ k = "https")
              then ({[ "http" := "http://127.0.0.1:7890" ]} : gmap string string) !! k
              else None)
    ∧ (PyStr.has_char "=" "http=http://p:1=x" = false →
       @cli.load_proxies cli.env_proxy (Some "http=http://p:1=x") = Ok configured)
    ∧ (PyStr.has_char "=" "http=http://p:1=x" = true →
       ∃ scheme address,
         PyStr.has_char "=" scheme = false ∧ PyStr.has_char "=" address = false
         ∧ ("http=http://p:1=x" = scheme +:+ String "=" address
            ∨ ∃ rest, "http=http://p:1=x"
                      = scheme +:+ String "=" (address +:+ String "=" rest))
         ∧ @cli.load_proxies cli.env_proxy (Some "http=http://p:1=x")
           = Ok (<[scheme := address]> configured)).
Proof.
  apply (@load_proxies_override cli.env_proxy
           {[ "http" := "http://127.0.0.1:7890" ]} "http=http://p:1=x").
  reflexivity.
Defined.

Example proxy_cut_at_second_equals :
  @cli.load_proxies cli.env_proxy (Some "http=http://p:1=x")
  = Ok {[ "http" := "http://p:1" ]}.
Proof. reflexivity. Qed.

Lemma prepare_tasks_witness :
  match @cli.prepare cli.env_proxy _ _ ["10.9/z"] [7%Z] ["T"] (Some "outdir") None None
          (Some "dois.txt") cli.demo_start with
  | Ok tasks =>
      cli.source_keyword <$> tasks
      = ((cli.KwStr <$> cli.load_dois cli.demo_start ["10.9/z"] (Some "dois.txt"))
         ++ (cli.KwInt <$> [7%Z]) ++ (cli.KwStr <$> ["T"]))%list
      ∧ cli.source_type <$> tasks
        = (replicate (length (cli.load_dois cli.demo_start ["10.9/z"] (Some "dois.txt")))
                     "doi"
           ++ replicate (length [7%Z]) "pmid" ++ replicate (length ["T"]) "title")%list
  | Raise _ => False
  end.
Proof.
  destruct (@cli.prepare cli.env_proxy _ _ ["10.9/z"] [7%Z] ["T"] (Some "outdir") None None
              (Some "dois.txt") cli.demo_start) as [tasks|e] eqn:E.
  - destruct (@prepare_tasks cli.env_proxy _ _ _ _ _ _ _ _ _ _ _ E) as (Hk & Ht & _).
    split; [exact Hk | exact Ht].
  - vm_compute in E. discriminate.
Defined.

Example prepare_tasks_demo :
  cli.source_keyword
  <$> cli.build_tasks (cli.load_dois cli.demo_start ["10.9/z"] (Some "dois.txt"))
        [7%Z] ["T"] None (Some "outdir/") ∅
  = [cli.KwStr "10.9/z"; cli.KwStr "10.1/a"; cli.KwStr "bad-doi"; cli.KwStr "10.1/b";
     cli.KwInt 7; cli.KwStr "T"].
Proof. vm_compute. reflexivity. Qed.

Lemma download_counters_witness :
  match @cli.download cli.env_proxy _ _ ["10.9/z"] [7%Z] ["T"] (Some "outdir") None None
          (Some "dois.txt") cli.demo_start with
  | (Ok rep, _) =>
      cli.total_attempted (cli.final rep) = length (cli.tasks rep)
      ∧ (cli.successful_downloads (cli.final rep)
         + length (cli.failed_sources (cli.final rep))
         = cli.total_attempted (cli.final rep))%nat
      ∧ cli.failed_sources (cli.final rep)
        `sublist_of` (cli.source_keyword <$> cli.tasks rep)
  | (Raise _, _) => False
  end.
Proof.
  destruct (@cli.download cli.env_proxy _ _ ["10.9/z"] [7%Z] ["T"] (Some "outdir") None None
              (Some "dois.txt") cli.demo_start) as [[rep|e] w'] eqn:E.
  - exact (@download_counters cli.env_proxy _ _ _ _ _ _ _ _ _ _ _ _ E).
  - vm_compute in E. discriminate.
Defined.

Lemma download_progress_lines_witness :
  match @cli.download cli.env_proxy _ _ ["10.9/z"] [7%Z] ["T"] (Some "outdir") None None
          (Some "dois.txt") cli.demo_start with
  | (Ok rep, _) =>
      (cli.progress (cli.final rep)).*2
      = List.filter (λ k, bool_decide (k mod 5 = 0 ∨ k = length (cli.tasks rep))%nat)
                    (seq 1 (length (cli.tasks rep)))
      ∧ (cli.tasks rep ≠ [] →
         last (cli.progress (cli.final rep))
         = Some (cli.successful_downloads (cli.final rep), length (cli.tasks rep)))
  | (Raise _, _) => False
  end.
Proof.
  destruct (@cli.download cli.env_proxy _ _ ["10.9/z"] [7%Z] ["T"] (Some "outdir") None None
              (Some "dois.txt") cli.demo_start) as [[rep|e] w'] eqn:E.
  - exact (@download_progress_lines cli.env_proxy _ _ _ _ _ _ _ _ _ _ _ _ E).
  - vm_compute in E. discriminate.
Defined.

Example download_demo :
  (let '(r, w') := @cli.download cli.env_proxy _ _ ["10.9/z"] [7%Z] ["T"] (Some "outdir")
                     None None (Some "dois.txt") cli.demo_start in
   match r with
   | Ok rep => Some (cli.final rep, cli.failed_file rep, cli.demo_written w')
   | Raise _ => None
   end)
  = Some ({| cli.total_attempted := 6; cli.successful_downloads := 3;
             cli.failed_sources := [cli.KwStr "bad-doi"; cli.KwInt 7; cli.KwStr "T"];
             cli.progress := [(3, 5); (3, 6)] |},
          Some "dois_failed.txt",
          [("dois_failed.txt",
            "bad-doi" +:+ String "010" ("7" +:+ String "010" ("T" +:+ String "010" "")))]).
Proof. vm_compute. reflexivity. Qed.


Lemma demo_raising_tasks_record (w : cli.demo_world) (k : cli.task_kwargs) (e : exn)
    (ctx : gmap string pyval) (w1 : cli.demo_world) :
  cli.run_task w k = ((Raise e, ctx), w1) →
  is_Some (ctx !! "status") ∧ is_Some (ctx !! "error").
Proof.
  simpl. unfold cli.demo_run. intros Hrun.
  destruct (cli.source_keyword k) as [s|n]; [|done].
  destruct (PyStr.startswith "10." s); [done|].
  injection Hrun as <- <- <-. split; by eexists.
Defined.

Lemma download_attempts_all_witness :
  ∃ rep w',
    @cli.download cli.env_proxy _ _ ["bad"; "10.9/z"] [] [] None None None None cli.demo_start
    = (Ok rep, w')
    ∧ cli.tasks rep
      = cli.build_tasks ["bad"; "10.9/z"] [] [] None None
          {[ "http" := "http://127.0.0.1:7890" ]}
    ∧ cli.total_attempted (cli.final rep)
      = length (cli.build_tasks ["bad"; "10.9/z"] [] [] None None
                  ({[ "http" := "http://127.0.0.1:7890" ]} : gmap string string)).
Proof.
  apply (@download_attempts_all cli.env_proxy _ _ ["bad"; "10.9/z"] [] [] None None None None
           cli.demo_start).
  - exact demo_raising_tasks_record.
  - vm_compute. reflexivity.
Defined.

Lemma download_failed_file_witness :
  match @cli.download cli.env_proxy _ _ ["10.9/z"] [7%Z] ["T"] (Some "outdir") None None
          (Some "dois.txt") cli.demo_start with
  | (Ok rep, _) =>
      is_Some (cli.failed_file rep)
      ↔ cli.failed_sources (cli.final rep) ≠ [] ∧ cli.truthy (Some "dois.txt") = true
  | (Raise _, _) => False
  end.
Proof.
  destruct (@cli.download cli.env_proxy _ _ ["10.9/z"] [7%Z] ["T"] (Some "outdir") None None
              (Some "dois.txt") cli.demo_start) as [[rep|e] w'] eqn:E.
  - exact (proj1 (@download_failed_file cli.env_proxy _ _ _ _ _ _ _ _ _ _ _ _ E)).
  - vm_compute in E. discriminate.
Defined.

Lemma download_empty_out_witness :
  @cli.download cli.env_proxy _ _ ["10.9/z"] [7%Z] [] (Some "") None None None cli.demo_start
  = (Raise (Exn IndexError "string index out of range" None), cli.demo_start).
Proof.
  apply (@download_empty_out cli.env_proxy).
  - simpl. lia.
  - intros _. by eexists.
Defined.

(** * More on the extractor *)

(** ** Cleaned titles *)

Section clean_title_facts.
Import PyStr.

Lemma has_char_app (c : ascii) (x y : string) :
  has_char c (x +:+ y) = has_char c x || has_char c y.
Proof.
  induction x as [|a x IH]; [done|]. rewrite app_cons. simpl.
  by destruct (decide (a = c)).
Qed.

Lemma has_char_take (c : ascii) (n : nat) (s : string) :
  has_char c s = false → has_char c (take n s) = false.
Proof.
  intros Hs. rewrite (take_drop n s), has_char_app in Hs.
  by apply orb_false_elim in Hs as [-> _].
Qed.

Lemma has_char_drop (c : ascii) (n : nat) (s : string) :
  has_char c s = false → has_char c (drop n s) = false.
Proof.
  intros Hs. rewrite (take_drop n s), has_char_app in Hs.
  by apply orb_false_elim in Hs as [_ ->].
Qed.

Lemma has_char_strip (c : ascii) (s : string) :
  has_char c s = false → has_char c (strip s) = false.
Proof.
  intros Hs. destruct (strip_spec s) as (l & r & _ & _ & Heq & _).
  rewrite Heq, !has_char_app in Hs.
  apply orb_false_elim in Hs as [_ Hs]. by apply orb_false_elim in Hs as [-> _].
Qed.

Lemma has_char_re_sub (cls : list ascii) (r c : ascii) (s : string) :
  c ∈ cls → r ∉ cls → has_char c (re_sub_class cls (String r EmptyString) s) = false.
Proof.
  intros Hc Hr. induction s as [|a s IH]; simpl; [done|].
  case_bool_decide as Ha; rewrite app_cons, app_empty_l; simpl; rewrite IH.
  - destruct (decide (r = c)) as [->|]; done.
  - destruct (decide (a = c)) as [->|]; done.
Qed.

Lemma re_sub_unchanged (cls : list ascii) (repl s : string) :
  (∀ c, c ∈ cls → has_char c s = false) → re_sub_class cls repl s = s.
Proof.
  induction s as [|a s IH]; intros Hs; simpl; [done|].
  rewrite bool_decide_false.
  - rewrite app_cons, app_empty_l, IH; [done|].
    intros c Hc. specialize (Hs c Hc). simpl in Hs. by destruct (decide (a = c)).
  - intros Ha. specialize (Hs a Ha). simpl in Hs. by destruct (decide (a = a)).
Qed.

Lemma take_all (n : nat) (s : string) : (String.length s ≤ n)%nat → take n s = s.
Proof.
  revert n. induction s as [|a s IH]; intros [|n] Hn; simpl in *; try done; [lia|].
  rewrite IH; [done|lia].
Qed.

Lemma space_not_hostile : " "%char ∉ rstr.
Proof. rewrite elem_of_rstr. intros Hc. repeat destruct Hc as [Hc|Hc]; done. Qed.

(** X15.  A cleaned title holds none of the characters slash, backslash,
    colon, star, question mark, double quote, less-than, greater-than and
    vertical bar. *)
Theorem clean_title_no_hostile (title : string) (c : ascii) :
  c ∈ rstr → has_char c (_clean_title title) = false.
Proof.
  intros Hc. rewrite clean_title_unfold.
  apply has_char_strip, has_char_take, has_char_re_sub; [done|].
  apply space_not_hostile.
Qed.

(** X16.  Cleaning a cleaned title changes nothing. *)
Theorem clean_title_idempotent (title : string) :
  _clean_title (_clean_title title) = _clean_title title.
Proof.
  rewrite (clean_title_unfold (_clean_title title)).
  rewrite re_sub_unchanged.
  2:{ intros c Hc. rewrite clean_title_unfold.
      apply has_char_strip, has_char_take, has_char_re_sub; [done|].
      apply space_not_hostile. }
  rewrite take_all.
  - rewrite clean_title_unfold. apply strip_idemp.
  - rewrite clean_title_unfold. etrans; [apply length_strip|].
    rewrite length_take. lia.
Qed.

Lemma all_space_take (n : nat) (s : string) :
  all_space s = true → all_space (take n s) = true.
Proof.
  intros Hs. rewrite (take_drop n s), all_space_app in Hs.
  by apply andb_prop in Hs as [-> _].
Qed.

(** X17.  A title made of nothing but whitespace and the characters that
    are replaced cleans to the empty string, which is returned as a
    title. *)
Theorem clean_title_nothing_left (title : string) :
  (∀ c, has_char c title = true → isspace c = true ∨ c ∈ rstr) →
  _clean_title title = EmptyString.
Proof.
  intros Hall. rewrite clean_title_unfold. apply strip_empty, all_space_take.
  induction title as [|a title IH]; [done|]. simpl.
  assert (all_space (re_sub_class rstr " " title) = true) as Hrest.
  { apply IH. intros c Hc. apply Hall. simpl. rewrite Hc. by case_decide. }
  case_bool_decide as Ha; rewrite app_cons, app_empty_l; simpl; rewrite Hrest.
  - done.
  - destruct (Hall a) as [->|?]; [|done..]. simpl. by destruct (decide (a = a)).
Qed.

End clean_title_facts.

Lemma clean_title_no_hostile_witness :
  PyStr.has_char "/" (_clean_title "My/Title:Here") = false.
Proof. apply clean_title_no_hostile. apply elem_of_rstr. tauto. Defined.

Lemma clean_title_nothing_left_witness : _clean_title " ?:| " = EmptyString.
Proof.
  apply clean_title_nothing_left. intros c Hc.
  simpl in Hc. repeat case_decide; try done; subst c;
    first [by left | right; apply elem_of_rstr; tauto].
Defined.

(** ** URL resolution and extraction *)

Section extractor_more_facts.
Context `{Env}.
Implicit Types (self : HtmlPdfExtractor) (e x : exn).

Lemma extract_url_parsed self url :
  _extract_url self = Ok url →
  ∃ soup, BeautifulSoup (HtmlContent.content (content self)) (_parser self) = Ok soup.
Proof.
  unfold _extract_url, _extract_raw_url.
  destruct (BeautifulSoup _ _) as [soup|]; [by exists soup | done].
Qed.

(** X18.  Once URL extraction has returned, title extraction returns too:
    the [try] block of [extract] is left with an exception only by URL
    extraction. *)
Theorem extraction_fails_in_url_only self e :
  extraction_raises self e ↔ _extract_url self = Raise e.
Proof.
  split; [|by left]. intros [Hu|(url & Hu & Ht)]; [done|].
  destruct (extract_url_parsed _ _ Hu) as [soup Hsoup].
  destruct (extract_title_returns _ _ Hsoup) as [title Htitle]. congruence.
Qed.

(** X19.  After the raw value is read, URL resolution fails in one case
    only: the value holds no recognized protocol prefix, what is left of it
    without the fragment starts with one slash, and the referer to put in
    front of it is not a string.  The exception is then a [TypeError]. *)
Theorem extract_url_fails_iff self raw :
  _extract_raw_url self = Ok raw →
  ((∃ e, _extract_url self = Raise e)
   ↔ ¬ has_protocol_prefix raw
     ∧ ∃ url, fragment_stripped raw url
              ∧ PyStr.startswith "/" url = true ∧ PyStr.startswith "//" url = false
              ∧ ∀ referer, active_referer self ≠ PyStr referer)
  ∧ ∀ e, _extract_url self = Raise e → exn_class e = TypeError.
Proof.
  intros Hraw. split; [|intros e; by apply extract_url_error_after_raw with raw].
  rewrite (extract_url_unfold _ _ Hraw).
  destruct (split_fragment raw) as (url & segs & Hsp & Hfrag).
  destruct (existsb _ _) eqn:Hp.
  { apply existsb_has_protocol_prefix in Hp. split; [by intros [??]|tauto]. }
  apply no_protocol_prefix in Hp. rewrite Hsp, getitem_0, bind_Ok. split.
  - intros [e He]. split; [done|]. exists url. split; [done|].
    destruct (PyStr.startswith "//" url); [done|].
    destruct (PyStr.startswith "/" url); [|done].
    do 2 (split; [done|]). intros referer Hr. by rewrite Hr in He.
  - intros (_ & url' & Hfrag' & H1 & H2 & Hr).
    rewrite (fragment_stripped_unique _ _ _ Hfrag Hfrag'), H2, H1.
    destruct (active_referer self) as [|referer| |] eqn:E; simpl; eauto.
    by destruct (Hr referer).
Qed.

(** X20.  The URL resolved from a raw value without protocol prefix
    carries no fragment: unless the referer holds one, no [#] is in it. *)
Theorem extract_url_no_fragment self raw out :
  _extract_raw_url self = Ok raw →
  ¬ has_protocol_prefix raw →
  _extract_url self = Ok out →
  (∀ referer, active_referer self = PyStr referer → PyStr.has_char "#" referer = false) →
  PyStr.has_char "#" out = false.
Proof.
  intros Hraw Hp. rewrite (extract_url_unfold _ _ Hraw).
  apply no_protocol_prefix in Hp. rewrite Hp.
  destruct (split_fragment raw) as (url & segs & -> & [Hurl _]).
  rewrite getitem_0, bind_Ok.
  assert (PyStr.has_char "#" (DEFAULT_PROTOCOL_PREFIX +:+ PyStr.drop 2 url) = false)
    as Hscheme.
  { rewrite has_char_app. by rewrite has_char_drop. }
  destruct (PyStr.startswith "//" url).
  { intros Hout _. congruence. }
  destruct (PyStr.startswith "/" url); [|intros Hout _; congruence].
  destruct (active_referer self) as [|referer| |]; try done.
  intros Hout Hr.
  assert (PyStr.has_char "#" (referer +:+ url) = false) as Href.
  { by rewrite has_char_app, Hurl, (Hr referer). }
  simpl in Hout. congruence.
Qed.

(** X21.  Without a task [extract] leaves the extractor as it was,
    whether it returns or raises. *)
Theorem extract_without_task self :
  task self = None → (extract self).2 = self.
Proof.
  intros Htask.
  destruct (extraction_returns_or_raises self) as [(url & title & Hu & Ht)|[e He]].
  - by rewrite (extract_returns _ _ _ Hu Ht), Htask.
  - destruct (extract_raises _ _ He) as (x & self' & -> & _ & Hf).
    unfold failure_recorded in Hf. by rewrite Htask in Hf.
Qed.

(** URL and title extraction read the content, the selector, the
    attribute name, the parser and the referer of the task context, and
    nothing else. *)
Lemma extraction_reads self self' :
  content self' = content self →
  pdf_tag_selector self' = pdf_tag_selector self →
  pdf_tag_attr self' = pdf_tag_attr self →
  _parser self' = _parser self →
  active_referer self' = active_referer self →
  _extract_url self' = _extract_url self ∧ _extract_title self' = _extract_title self.
Proof.
  intros Hc Hs Ha Hp Hr.
  assert (_extract_raw_url self' = _extract_raw_url self) as Hraw.
  { unfold _extract_raw_url. by rewrite Hc, Hs, Ha, Hp. }
  split; [|unfold _extract_title; by rewrite Hc, Hp].
  destruct (_extract_raw_url self) as [raw|e] eqn:E.
  - by rewrite (extract_url_unfold _ _ E), (extract_url_unfold _ _ Hraw), Hr.
  - unfold _extract_url. by rewrite Hraw, E.
Qed.

(** X22.  A successful extraction can be repeated: on the extractor it
    left, [extract] returns the same information and changes nothing. *)
Theorem extract_success_repeatable self info self' :
  extract self = (Ok info, self') →
  extract self' = (Ok info, self').
Proof.
  intros Hx.
  destruct (extraction_returns_or_raises self) as [(url & title & Hu & Ht)|[e He]].
  2:{ destruct (extract_raises _ _ He) as (x & self'' & Hx' & _). congruence. }
  rewrite (extract_returns _ _ _ Hu Ht) in Hx. injection Hx as <- <-.
  destruct (task self) as [t|] eqn:Htask.
  - match goal with |- extract ?s = _ => set (self1 := s) end.
    destruct (extraction_reads self self1) as [Hu1 Ht1]; try done.
    { unfold active_referer. rewrite Htask. simpl. by rewrite lookup_insert_ne. }
    rewrite (extract_returns self1 url title) by congruence.
    simpl. by rewrite insert_insert_eq.
  - rewrite (extract_returns _ _ _ Hu Ht). by rewrite Htask.
Qed.

(** X23.  A failed extraction is not recorded once and for all: called
    again on the extractor it left, [extract] raises the same exception,
    leaves the task context as it is, and the health service receives the
    same [increment_failed_times] call once more. *)
Theorem extract_failure_counts_again self t x self' :
  task self = Some t →
  extract self = (Raise x, self') →
  ∃ self'',
    extract self' = (Raise x, self'')
    ∧ task self'' = task self'
    ∧ calls (service self'')
      = (calls (service self)
         ++ [increment_failed_times_call (dict_get (context t) "referer" PyNone);
             increment_failed_times_call (dict_get (context t) "referer" PyNone)])%list.
Proof.
  intros Htask Hx.
  destruct (extract_raise_inv _ _ _ Hx) as (e & He & Hw & Hf).
  unfold failure_recorded in Hf. rewrite Htask in Hf.
  destruct Hf as (Htask' & Hcalls & Hc & Hs & Ha & Hp).
  destruct (extraction_reads self self') as [Hu1 Ht1]; try done.
  { unfold active_referer. rewrite Htask, Htask'. simpl.
    by rewrite !lookup_insert_ne. }
  assert (extraction_raises self' e) as He'.
  { destruct He as [He|(url & Hu & Ht)]; [left|right; exists url; split]; congruence. }
  destruct (extract_raises _ _ He') as (x' & self'' & Hx' & Hw' & Hf').
  unfold wraps in Hw, Hw'. subst x x'.
  exists self''. split; [done|].
  unfold failure_recorded in Hf'. rewrite Htask' in Hf'. simpl in Hf'.
  destruct Hf' as (Htask'' & Hcalls'' & _). split.
  - rewrite Htask'', Htask'. do 2 f_equal. apply map_eq. intros k.
    rewrite !lookup_insert. by repeat case_decide.
  - rewrite Hcalls'', Hcalls, <- app_assoc. simpl. do 3 f_equal.
    unfold dict_get. by rewrite !lookup_insert_ne.
Qed.

(** X24.  From the extractor [__init__] builds for a task, [extract]
    leaves the context status at [extracting] when it returns and at
    [extracting_failed] when it raises; the keys of the context other than
    [status], [info] and [error] hold what the task came with. *)
Theorem init_extract_status (c : HtmlContent.t) (t : BaseTask) self
    (r : result PdfUrlTitleInformation.t) self' :
  __init__ c (Some t) = Ok self →
  extract self = (r, self') →
  ∃ t',
    task self' = Some t'
    ∧ context t' !! "status"
      = Some (PyStr match r with Ok _ => "extracting" | Raise _ => "extracting_failed" end)
    ∧ ∀ k, k ≠ "status" → k ≠ "info" → k ≠ "error" → context t' !! k = context t !! k.
Proof.
  unfold __init__. intros Hinit Hx.
  destruct (configs_get _ "pdf_tag_selector") as [sel|]; [|done].
  destruct (configs_get _ "pdf_tag_attr") as [attr|]; [|done].
  rewrite !bind_Ok in Hinit. injection Hinit as <-.
  destruct (extraction_returns_or_raises
              {| content := c;
                 task := Some {| context := <["status" := PyStr "extracting"]> (context t) |};
                 service := {| calls := [] |}; pdf_tag_selector := sel;
                 pdf_tag_attr := attr; _parser := "html.parser" |})
    as [(url & title & Hu & Ht)|[e He]].
  - rewrite (extract_returns _ _ _ Hu Ht) in Hx. injection Hx as <- <-. simpl.
    eexists. split; [done|]. simpl. split.
    + by rewrite lookup_insert_ne, lookup_insert_eq.
    + intros k ? ? ?. by rewrite !lookup_insert_ne.
  - destruct (extract_raises _ _ He) as (x & self'' & Hx' & Hw & Hf).
    rewrite Hx' in Hx. injection Hx as <- <-.
    unfold failure_recorded in Hf. simpl in Hf. destruct Hf as (-> & _).
    eexists. split; [done|]. simpl. split.
    + by rewrite lookup_insert_ne, lookup_insert_eq.
    + intros k ? ? ?. by rewrite !lookup_insert_ne.
Qed.


End extractor_more_facts.

Lemma extract_url_fails_iff_witness :
  (∃ e, @_extract_url env_empty
          (demo_extractor "<a id='pdf' href='/x'>" (Some {[ "referer" := PyNone ]}))
        = Raise e)
  ↔ ¬ @has_protocol_prefix env_empty "/x"
    ∧ ∃ url, fragment_stripped "/x" url
             ∧ PyStr.startswith "/" url = true ∧ PyStr.startswith "//" url = false
             ∧ ∀ referer,
                 @active_referer env_empty
                    (demo_extractor "<a id='pdf' href='/x'>" (Some {[ "referer" := PyNone ]}))
                 ≠ PyStr referer.
Proof.
  apply (@extract_url_fails_iff env_empty
           (demo_extractor "<a id='pdf' href='/x'>" (Some {[ "referer" := PyNone ]})) "/x").
  reflexivity.
Defined.

Lemma extract_url_no_fragment_witness :
  PyStr.has_char "#" "https://example.com/x" = false.
Proof.
  apply (@extract_url_no_fragment env_m1
           (demo_extractor "<a id='pdf' href='//example.com/x#frag'>" (Some m1_ctx))
           "//example.com/x#frag").
  - reflexivity.
  - apply not_prefixed_demo; reflexivity.
  - reflexivity.
  - intros referer [= <-]. reflexivity.
Defined.

Lemma extract_without_task_witness :
  (@extract env_m1 (demo_extractor "<p>no link</p>" None)).2
  = demo_extractor "<p>no link</p>" None.
Proof. apply (@extract_without_task env_m1). reflexivity. Defined.

Lemma extract_success_repeatable_witness :
  match @extract env_m1
          (demo_extractor
             "<title>Paper Title | Journal</title><a id='pdf' href='/downloads/a.pdf'>"
             (Some m1_ctx)) with
  | (Ok info, self') => @extract env_m1 self' = (Ok info, self')
  | (Raise _, _) => False
  end.
Proof.
  destruct (@extract env_m1
              (demo_extractor
                 "<title>Paper Title | Journal</title><a id='pdf' href='/downloads/a.pdf'>"
                 (Some m1_ctx))) as [[info|e] self'] eqn:E.
  - exact (@extract_success_repeatable env_m1 _ _ _ E).
  - vm_compute in E. discriminate.
Defined.

Lemma extract_failure_counts_again_witness :
  match @extract env_m1 (demo_extractor "<p>no link</p>" (Some m1_ctx)) with
  | (Raise x, self') =>
      ∃ self'',
        @extract env_m1 self' = (Raise x, self'')
        ∧ task self'' = task self'
        ∧ calls (service self'')
          = [increment_failed_times_call (PyStr "https://m1.test");
             increment_failed_times_call (PyStr "https://m1.test")]
  | (Ok _, _) => False
  end.
Proof.
  destruct (@extract env_m1 (demo_extractor "<p>no link</p>" (Some m1_ctx)))
    as [[info|x] self'] eqn:E.
  - vm_compute in E. discriminate.
  - exact (@extract_failure_counts_again env_m1
             (demo_extractor "<p>no link</p>" (Some m1_ctx))
             {| context := <["status" := PyStr "extracting"]> m1_ctx |} x self' eq_refl E).
Defined.

Lemma init_extract_status_witness :
  match @__init__ env_m1 {| HtmlContent.content := "<p>no link</p>" |}
          (Some {| context := m1_ctx |}) with
  | Ok self =>
      ∃ t',
        task (@extract env_m1 self).2 = Some t'
        ∧ context t' !! "status"
          = Some (PyStr match (@extract env_m1 self).1 with
                        | Ok _ => "extracting"
                        | Raise _ => "extracting_failed"
                        end)
        ∧ ∀ k, k ≠ "status" → k ≠ "info" → k ≠ "error" → context t' !! k = m1_ctx !! k
  | Raise _ => False
  end.
Proof.
  destruct (@__init__ env_m1 {| HtmlContent.content := "<p>no link</p>" |}
              (Some {| context := m1_ctx |})) as [self|e] eqn:E.
  - apply (@init_extract_status env_m1 _ {| context := m1_ctx |} self _ _ E).
    by destruct (@extract env_m1 self).
  - vm_compute in E. discriminate.
Defined.
